(** * macb_uio: session lifecycle and region mapping of the UIO platform driver

    A shallow embedding of [macb_uio.c].  The driver's own functions
    ([macb_uio_open], [macb_uio_release], [macb_uio_release_iomem],
    [macb_uio_setup_iomem], [macb_uio_remove]) are written in a small
    state monad that threads the C object a function works on together
    with the log of the kernel services it calls.  The kernel services
    themselves are not part of the driver: what they return is taken from
    an environment that may depend on everything that happened before.

    [macb_uio_probe] is written in the same monad, with a wider log for
    the kernel calls that only probe makes.  The polling thread
    [macb_uio_poll] and the attribute [physical_addr_show] are plain
    functions.  The other sysfs attributes ([dev_type], [pclk_hz],
    [phy_mode], [speed_info]) are not modelled. *)

From Stdlib Require Import ZArith Lia String HexString.
From stdpp Require Import base list.

Local Open Scope Z_scope.

(** ** Machine integers and pointers *)

(** [atomic_t] holds a C [int]; the kernel's atomic operations wrap in
    two's complement. *)
Definition INT_MIN : Z := - 2 ^ 31.
Definition INT_MAX : Z := 2 ^ 31 - 1.
Definition wrap_int (x : Z) : Z := (x + 2 ^ 31) mod 2 ^ 32 - 2 ^ 31.

(** [phys_addr_t] and [resource_size_t] are unsigned 64-bit. *)
Definition u64 (x : Z) : Z := x mod 2 ^ 64.

(** Pointers are addresses; [NULL] is address 0. *)
Abbreviation ptr := Z (only parsing).
Definition NULL : ptr := 0.

(** [ERR_PTR(e)] for a negative errno [e], and the test [IS_ERR]. *)
Definition MAX_ERRNO : Z := 4095.
Definition ERR_PTR (e : Z) : ptr := u64 e.
Definition IS_ERR (p : ptr) : bool := 2 ^ 64 - MAX_ERRNO <=? p.

(** Modelled from the spec: the errno constants [ENOENT] and [EINVAL] come
    from the kernel headers, which are not part of the sources; they are
    the results the spec calls [NoResource] and the error of a removal
    without a device record.  The values are Linux's. *)
Definition ENOENT : Z := 2.
Definition EINVAL : Z := 22.
Definition ENOMEM : Z := 12.

(** ** Data *)

(** [struct resource]: an inclusive physical range. *)
Record resource := mk_resource { res_start : Z; res_end : Z }.

Inductive uio_memtype :=
| UIO_MEM_NONE | UIO_MEM_PHYS | UIO_MEM_LOGICAL | UIO_MEM_VIRTUAL.

(** [struct uio_mem], the fields the driver touches.  [kzalloc] leaves
    every field zero. *)
Record uio_mem := mk_uio_mem {
  name : option string;
  addr : Z;
  size : Z;
  memtype : uio_memtype;
  internal_addr : ptr
}.

Definition zero_mem : uio_mem :=
  {| name := None; addr := 0; size := 0;
     memtype := UIO_MEM_NONE; internal_addr := NULL |}.

Definition set_name (v : option string) (m : uio_mem) : uio_mem :=
  {| name := v; addr := addr m; size := size m;
     memtype := memtype m; internal_addr := internal_addr m |}.
Definition set_addr (v : Z) (m : uio_mem) : uio_mem :=
  {| name := name m; addr := v; size := size m;
     memtype := memtype m; internal_addr := internal_addr m |}.
Definition set_size (v : Z) (m : uio_mem) : uio_mem :=
  {| name := name m; addr := addr m; size := v;
     memtype := memtype m; internal_addr := internal_addr m |}.
Definition set_memtype (v : uio_memtype) (m : uio_mem) : uio_mem :=
  {| name := name m; addr := addr m; size := size m;
     memtype := v; internal_addr := internal_addr m |}.
Definition set_internal_addr (v : ptr) (m : uio_mem) : uio_mem :=
  {| name := name m; addr := addr m; size := size m;
     memtype := memtype m; internal_addr := v |}.

(** [struct uio_info]: the array [mem[MAX_UIO_MAPS]] and the minor number
    of the registered uio device (used to name the polling thread). *)
Record uio_info := mk_uio_info {
  mem : list uio_mem;
  minor : Z
}.

Definition set_mem (v : list uio_mem) (i : uio_info) : uio_info :=
  {| mem := v; minor := minor i |}.

(** [struct rte_uio_platform_dev]. *)
Record rte_uio_platform_dev := mk_udev {
  info : uio_info;
  refcnt : Z;
  poll_task : ptr
}.

Definition set_info (v : uio_info) (u : rte_uio_platform_dev) :=
  {| info := v; refcnt := refcnt u; poll_task := poll_task u |}.
Definition set_refcnt (v : Z) (u : rte_uio_platform_dev) :=
  {| info := info u; refcnt := v; poll_task := poll_task u |}.
Definition set_poll_task (v : ptr) (u : rte_uio_platform_dev) :=
  {| info := info u; refcnt := refcnt u; poll_task := v |}.

(** [struct platform_device]: the memory resources of the device by index
    (what [platform_get_resource(dev, IORESOURCE_MEM, i)] finds), and the
    driver data, the device record attached by probe, if any. *)
Record platform_device := mk_pdev {
  mem_resource : nat -> option resource;
  driver_data : option rte_uio_platform_dev
}.

Definition set_driver_data (v : option rte_uio_platform_dev)
    (d : platform_device) : platform_device :=
  {| mem_resource := mem_resource d; driver_data := v |}.

(** ** Calls into the kernel *)

(** One entry per kernel service called, with its arguments and, where the
    driver uses it, its result.  [Kfree] carries the record as it stands
    when it is freed. *)
Inductive event :=
| KthreadCreate (minor : Z) (task : ptr)
| KthreadBind (task : ptr) (cpu : Z)
| WakeUpProcess (task : ptr)
| KthreadStop (task : ptr)
| Ioremap (addr size : Z) (mapped : ptr)
| Iounmap (mapped : ptr)
| SysfsRemoveGroup
| UioUnregisterDevice
| Kfree (obj : option rte_uio_platform_dev).

Abbreviation trace := (list event) (only parsing).

(** ** The monad: a C object of type [St], and the log of kernel calls *)

Definition M (St A : Type) : Type := St -> trace -> A * St * trace.

Definition ret {St A} (a : A) : M St A := fun s t => (a, s, t).

Definition bind {St A B} (m : M St A) (f : A -> M St B) : M St B :=
  fun s t => let '(a, s1, t1) := m s t in f a s1 t1.

Notation "x <- m ;; k" := (bind m (fun x => k))
  (at level 100, m at next level, right associativity).
Notation "m ;; k" := (bind m (fun _ => k))
  (at level 100, right associativity).

Definition get {St} : M St St := fun s t => (s, s, t).
Definition modify {St} (f : St -> St) : M St unit := fun s t => (tt, f s, t).
Definition call {St} (e : event) : M St unit := fun s t => (tt, s, t ++ [e]).

(** Run [m] on the [info] member of the device record. *)
Definition on_info {A} (m : M uio_info A) : M rte_uio_platform_dev A :=
  fun u t => let '(a, i1, t1) := m (info u) t in (a, set_info i1 u, t1).

(** Run [m] on the record the driver data points to, in place. *)
Definition on_udev {A} (m : M rte_uio_platform_dev A)
    : M platform_device (option A) :=
  fun d t =>
    match driver_data d with
    | Some u => let '(a, u1, t1) := m u t in
                (Some a, set_driver_data (Some u1) d, t1)
    | None => (None, d, t)
    end.

(** A [for] loop over the indices [idx], with the loop's local variables
    in [a]. *)
Fixpoint for_each {St A} (idx : list nat) (body : nat -> A -> M St A) (a : A)
    : M St A :=
  match idx with
  | [] => ret a
  | i :: rest => a1 <- body i a ;; for_each rest body a1
  end.

(** The results of a run. *)
Definition result {St A} (r : A * St * trace) : A := fst (fst r).
Definition state {St A} (r : A * St * trace) : St := snd (fst r).
Definition calls {St A} (r : A * St * trace) : trace := snd r.

(** Sample data for the concrete runs. *)
Definition sample_info : uio_info :=
  {| mem := replicate 5 zero_mem; minor := 0 |}.
(** The record as probe leaves it: [kzalloc] zeroes [poll_task],
    [atomic_set] puts the count at 0. *)
Definition fresh_udev (i : uio_info) : rte_uio_platform_dev :=
  {| info := i; refcnt := 0; poll_task := NULL |}.

(** An environment in which thread creation always gives task [p]. *)
Definition always_task (p : ptr) : trace -> ptr := fun _ => p.
(** An environment that maps every range at its own physical address,
    and one in which every mapping fails. *)
Definition map_identity : trace -> Z -> Z -> ptr := fun _ a _ => a.
Definition map_fails : trace -> Z -> Z -> ptr := fun _ _ _ => NULL.

(** A zeroed [uio_info] for a kernel with three maps, and one whose first
    entry is mapped at 4096. *)
Definition zeroed_info3 : uio_info :=
  {| mem := replicate 3 zero_mem; minor := 0 |}.
Definition mapped_info3 : uio_info :=
  {| mem := [set_internal_addr 4096 zero_mem; zero_mem; zero_mem]; minor := 0 |}.

(** A device with no resources and a fresh record attached. *)
Definition attached_idle : platform_device :=
  {| mem_resource := fun _ => None;
     driver_data := Some (fresh_udev sample_info) |}.

(** A device with memory resources 0 and 2 and none at index 1. *)
Definition two_of_three : platform_device :=
  {| mem_resource := fun i =>
       match i with
       | 0%nat => Some {| res_start := 0x28000123; res_end := 0x28001fff |}
       | 2%nat => Some {| res_start := 0x30000000; res_end := 0x30000000 |}
       | _ => None
       end;
     driver_data := None |}.


Section Driver.

(** ** The environment *)

(** What [kthread_create] and [ioremap] return, given the calls made so
    far (and the arguments). *)
Variable kthread_create_ret : trace -> ptr.
Variable ioremap_ret : trace -> Z -> Z -> ptr.

(** [MAX_UIO_MAPS] (linux/uio_driver.h) and [PAGE_SHIFT] (asm/page.h) are
    constants of the kernel the driver is built for. *)
Variable MAX_UIO_MAPS : nat.
Variable PAGE_SHIFT : Z.

(** Modelled from the spec: the page macros [PAGE_SIZE], [PAGE_MASK] and
    [PAGE_ALIGN] and the helper [resource_size] are used by
    [macb_uio_setup_iomem] but defined in kernel headers that are not part
    of the sources.  They are written here as bit operations on 64-bit
    values; [page_floor_spec] and [page_ceil_spec] below relate them to the
    spec's words, truncation down to the page boundary and rounding up to a
    page multiple. *)
Definition PAGE_SIZE : Z := u64 (Z.shiftl 1 PAGE_SHIFT).
Definition PAGE_MASK : Z := u64 (Z.lnot (PAGE_SIZE - 1)).
Definition PAGE_ALIGN (x : Z) : Z := Z.land (u64 (x + (PAGE_SIZE - 1))) PAGE_MASK.
Definition resource_size (r : resource) : Z := u64 (res_end r - res_start r + 1).

(** The spec's words, as arithmetic. *)
Definition page_floor (x : Z) : Z := PAGE_SIZE * (x / PAGE_SIZE).
Definition page_ceil (x : Z) : Z := PAGE_SIZE * ((x + PAGE_SIZE - 1) / PAGE_SIZE).

(** ** Kernel services *)

Definition atomic_inc_return : M rte_uio_platform_dev Z :=
  fun u t => let v := wrap_int (refcnt u + 1) in (v, set_refcnt v u, t).

(** Decrements, and tells whether the new value is 0. *)
Definition atomic_dec_and_test : M rte_uio_platform_dev bool :=
  fun u t => let v := wrap_int (refcnt u - 1) in (v =? 0, set_refcnt v u, t).

Definition kthread_create {St} (minor : Z) : M St ptr :=
  fun s t => let p := kthread_create_ret t in (p, s, t ++ [KthreadCreate minor p]).
Definition kthread_bind {St} (task : ptr) (cpu : Z) : M St unit :=
  call (KthreadBind task cpu).
Definition wake_up_process {St} (task : ptr) : M St unit :=
  call (WakeUpProcess task).
Definition kthread_stop {St} (task : ptr) : M St unit :=
  call (KthreadStop task).

Definition ioremap {St} (a s : Z) : M St ptr :=
  fun st t => let p := ioremap_ret t a s in (p, st, t ++ [Ioremap a s p]).
Definition iounmap {St} (p : ptr) : M St unit := call (Iounmap p).

Definition platform_get_resource (dev : platform_device) (i : nat)
    : option resource := mem_resource dev i.
Definition platform_get_drvdata
    : M platform_device (option rte_uio_platform_dev) :=
  fun d t => (driver_data d, d, t).
Definition platform_set_drvdata (v : option rte_uio_platform_dev)
    : M platform_device unit := modify (set_driver_data v).
Definition sysfs_remove_group {St} : M St unit := call SysfsRemoveGroup.
Definition uio_unregister_device {St} : M St unit := call UioUnregisterDevice.
Definition kfree {St} (obj : option rte_uio_platform_dev) : M St unit :=
  call (Kfree obj).

(** [info->mem[i]].  The driver's indices stay below [MAX_UIO_MAPS], the
    length of the array; outside the list a read gives a zeroed entry and
    a write does nothing. *)
Definition mem_at (i : uio_info) (k : nat) : uio_mem :=
  default zero_mem (mem i !! k).
Definition modify_mem (k : nat) (f : uio_mem -> uio_mem) : M uio_info unit :=
  modify (fun i => set_mem (alter f k (mem i)) i).

(** ** The driver *)

Definition macb_uio_open : M rte_uio_platform_dev Z :=
  v <- atomic_inc_return ;;
  if negb (v =? 1) then ret 0
  else
    udev <- get ;;
    task <- kthread_create (minor (info udev)) ;;
    modify (set_poll_task task) ;;
    udev <- get ;;
    kthread_bind (poll_task udev) 0 ;;
    wake_up_process (poll_task udev) ;;
    ret 0.

Definition macb_uio_release : M rte_uio_platform_dev Z :=
  zero <- atomic_dec_and_test ;;
  (if zero : bool
   then udev <- get ;; kthread_stop (poll_task udev)
   else ret tt) ;;
  ret 0.

(** Unmap previously ioremap'd resources. *)
Definition macb_uio_release_iomem : M uio_info unit :=
  for_each (seq 0%nat MAX_UIO_MAPS)
    (fun i _ =>
       info <- get ;;
       if negb (internal_addr (mem_at info i) =? NULL)
       then iounmap (internal_addr (mem_at info i))
       else ret tt)
    tt.

(** One turn of the loop of [macb_uio_setup_iomem]; [iom] is the loop's
    local counter of filled entries. *)
Definition setup_iomem_body (dev : platform_device) (i iom : nat)
    : M uio_info nat :=
  match platform_get_resource dev i with
  | None => ret iom
  | Some res =>
      modify_mem iom (set_memtype UIO_MEM_PHYS) ;;
      modify_mem iom (set_addr (Z.land (res_start res) PAGE_MASK)) ;;
      modify_mem iom (set_size (PAGE_ALIGN (resource_size res))) ;;
      modify_mem iom (set_name (Some "macb_regs"%string)) ;;
      info <- get ;;
      p <- ioremap (addr (mem_at info iom)) (size (mem_at info iom)) ;;
      modify_mem iom (set_internal_addr p) ;;
      ret (S iom)
  end.

Definition setup_iomem_loop (dev : platform_device) : M uio_info nat :=
  for_each (seq 0%nat MAX_UIO_MAPS) (setup_iomem_body dev) 0%nat.

(** Remap platform device's resources. *)
Definition macb_uio_setup_iomem (dev : platform_device) : M uio_info Z :=
  iom <- setup_iomem_loop dev ;;
  ret (if negb (iom =? 0)%nat then 0 else - ENOENT).

(** The C local [udev] is a pointer to the record: the calls work on the
    record in place, and [kfree] gets it as it stands at the end. *)
Definition macb_uio_remove : M platform_device Z :=
  udev <- platform_get_drvdata ;;
  match udev with
  | None => ret (- EINVAL)
  | Some _ =>
      on_udev macb_uio_release ;;
      sysfs_remove_group ;;
      uio_unregister_device ;;
      on_udev (on_info macb_uio_release_iomem) ;;
      udev <- platform_get_drvdata ;;
      platform_set_drvdata None ;;
      kfree udev ;;
      ret 0
  end.

(** ** Sequences of consumer calls *)

Inductive session_call := Open | Close.

Definition do_call (c : session_call) : M rte_uio_platform_dev Z :=
  match c with
  | Open => macb_uio_open
  | Close => macb_uio_release
  end.

(** Runs the calls in order and collects their results. *)
Fixpoint do_calls (cs : list session_call) : M rte_uio_platform_dev (list Z) :=
  match cs with
  | [] => ret []
  | c :: rest => r <- do_call c ;; rs <- do_calls rest ;; ret (r :: rs)
  end.

(** ** Reading the log *)

(** The workers started and not yet stopped: each [wake_up_process]
    counts one up, each [kthread_stop] one down. *)
Definition worker_delta (e : event) : Z :=
  match e with
  | WakeUpProcess _ => 1
  | KthreadStop _ => -1
  | _ => 0
  end.

Fixpoint workers_running (t : trace) : Z :=
  match t with
  | [] => 0
  | e :: rest => worker_delta e + workers_running rest
  end.

(** The task returned by the latest [kthread_create], [NULL] if there was
    none. *)
Definition created_task (e : event) : option ptr :=
  match e with
  | KthreadCreate _ p => Some p
  | _ => None
  end.

Fixpoint last_created (t : trace) (dflt : ptr) : ptr :=
  match t with
  | [] => dflt
  | e :: rest => last_created rest (default dflt (created_task e))
  end.

(** A pointer to a live task: neither [NULL] nor an error pointer. *)
Definition valid_task (p : ptr) : Prop := p <> NULL /\ IS_ERR p = false.

(** Opens minus closes of a sequence. *)
Fixpoint net_opens (cs : list session_call) : Z :=
  match cs with
  | [] => 0
  | Open :: rest => 1 + net_opens rest
  | Close :: rest => -1 + net_opens rest
  end.

(** What holds between the count, the stored task and the log. *)
Definition session_inv (u : rte_uio_platform_dev) (t : trace) : Prop :=
  workers_running t = (if 0 <? refcnt u then 1 else 0) /\
  poll_task u = last_created t NULL /\
  (0 < refcnt u -> valid_task (poll_task u)).

(** The entry [macb_uio_setup_iomem] writes for resource [res] when
    [ioremap] answers [p]. *)
Definition region_of (res : resource) (p : ptr) : uio_mem :=
  {| name := Some "macb_regs"%string;
     addr := Z.land (res_start res) PAGE_MASK;
     size := PAGE_ALIGN (resource_size res);
     memtype := UIO_MEM_PHYS;
     internal_addr := p |}.

(** The [ioremap] call made for [res], answered by [p]. *)
Definition ioremap_of (res : resource) (p : ptr) : event :=
  Ioremap (Z.land (res_start res) PAGE_MASK) (PAGE_ALIGN (resource_size res)) p.

(** The resources found at the indices [idx], in order. *)
Definition found_resources (dev : platform_device) (idx : list nat)
    : list resource :=
  omap (platform_get_resource dev) idx.

(** The mapped pointers of the entries that have one, in order. *)
Definition live_mappings (l : list uio_mem) : list ptr :=
  filter (fun p => p <> NULL) (internal_addr <$> l).

(** ** More ways to read the log *)

(** The calls that act on the polling thread. *)
Definition is_thread_call (e : event) : bool :=
  match e with
  | KthreadCreate _ _ | KthreadBind _ _ | WakeUpProcess _ | KthreadStop _ => true
  | _ => false
  end.

(** Every [kthread_bind], [wake_up_process] and [kthread_stop] of the log
    is given the task that the latest [kthread_create] before it returned,
    and that task is not [NULL]; [last] is the task created last before
    the log starts. *)
Fixpoint targets_latest (last : ptr) (t : trace) : Prop :=
  match t with
  | [] => True
  | KthreadCreate _ p :: rest => targets_latest p rest
  | KthreadBind p _ :: rest
  | WakeUpProcess p :: rest
  | KthreadStop p :: rest => p = last /\ p <> NULL /\ targets_latest last rest
  | _ :: rest => targets_latest last rest
  end.

(** ** Probe *)

(** What the kernel answers to one run of [macb_uio_probe]: whether
    [kzalloc] gives memory, the results of [sysfs_create_group] and
    [uio_register_device], the minor number of the uio device that a
    successful registration stores in [info->uio_dev], and the address and
    bus handle given by [dma_alloc_coherent]. *)
Variable kzalloc_ok : bool.
Variable sysfs_create_group_ret : Z.
Variable uio_register_device_ret : Z.
Variable uio_minor : Z.
Variable dma_alloc_ret : ptr.
Variable dma_handle : Z.

(** The kernel calls of probe.  [Driver e] is a call already listed in
    [event]; the others are made by probe alone.  [UioRegisterDevice]
    carries the identity fields probe has written into [info] by then
    (name, version, irq); messages are logged by their text, without the
    arguments and the final newline. *)
Inductive probe_event :=
| Driver (e : event)
| Kzalloc (ok : bool)
| DevErr (msg : string)
| DevInfo (msg : string)
| SysfsCreateGroup (ret : Z)
| UioRegisterDevice (name version : string) (irq : Z) (ret : Z)
| DmaAllocCoherent (size : Z) (cpu_addr : ptr) (handle : Z)
| Memset (p : ptr) (c n : Z)
| DmaFreeCoherent (size : Z) (cpu_addr : ptr) (handle : Z).

(** Probe works on the platform device; [kernel_log] has all its kernel
    calls in order, while the trace of the monad keeps the calls of
    [event], on which the answers of [ioremap] and [kthread_create]
    depend. *)
Record probe_state := mk_probe_state {
  probed_dev : platform_device;
  kernel_log : list probe_event
}.

Definition log_kernel (e : probe_event) : M probe_state unit :=
  modify (fun ps => {| probed_dev := probed_dev ps;
                       kernel_log := kernel_log ps ++ [e] |}).

(** Runs [m] on the object [obj] that probe holds through a local
    pointer, and gives back its result and the object after the run; the
    calls [m] adds to the trace are copied to the kernel log. *)
Definition on_local {Obj A} (m : M Obj A) (obj : Obj) : M probe_state (A * Obj) :=
  fun ps t =>
    let '(a, obj1, t1) := m obj t in
    ((a, obj1),
     {| probed_dev := probed_dev ps;
        kernel_log := kernel_log ps ++ (Driver <$> drop (length t) t1) |},
     t1).

Definition DRIVER_NAME : string := "macb_uio".
Definition DRIVER_VERSION : string := "5.0".
(** [UIO_IRQ_CUSTOM] of linux/uio_driver.h. *)
Definition UIO_IRQ_CUSTOM : Z := -1.

Definition set_minor (v : Z) (i : uio_info) : uio_info :=
  {| mem := mem i; minor := v |}.

(** The record [kzalloc] gives: every field zero. *)
Definition zeroed_udev : rte_uio_platform_dev :=
  {| info := {| mem := replicate MAX_UIO_MAPS zero_mem; minor := 0 |};
     refcnt := 0; poll_task := NULL |}.

(** The exits of probe through its labels. *)
Definition fail_release_iomem (udev : rte_uio_platform_dev) (err : Z)
    : M probe_state Z :=
  r <- on_local macb_uio_release_iomem (info udev) ;;
  on_local (kfree (Some (set_info (snd r) udev))) tt ;;
  ret err.

Definition fail_remove_group (udev : rte_uio_platform_dev) (err : Z)
    : M probe_state Z :=
  on_local sysfs_remove_group tt ;;
  fail_release_iomem udev err.

(** The harmless dma mapping at the end of probe. *)
Definition dma_self_test : M probe_state unit :=
  log_kernel (DmaAllocCoherent 1024 dma_alloc_ret dma_handle) ;;
  (if negb (dma_alloc_ret =? NULL)
   then log_kernel (Memset dma_alloc_ret 0 1024)
   else ret tt) ;;
  if dma_alloc_ret =? NULL
  then log_kernel (DevInfo "dma mapping failed")
  else
    log_kernel (DevInfo "mapping 1K dma=%#llx host=%p") ;;
    log_kernel (DmaFreeCoherent 1024 dma_alloc_ret dma_handle) ;;
    log_kernel (DevInfo "unmapping 1K dma=%#llx host=%p").

(** Platform uio driver probe routine: registers a uio device filled with
    the memory maps of the platform device.  The writes of [open],
    [release] and [priv] into [info] have no counterpart in the model:
    the handlers are [macb_uio_open] and [macb_uio_release], and the
    record is reached through the driver data. *)
Definition macb_uio_probe : M probe_state Z :=
  log_kernel (Kzalloc kzalloc_ok) ;;
  if negb kzalloc_ok then ret (- ENOMEM)
  else
    ps <- get ;;
    r <- on_local (macb_uio_setup_iomem (probed_dev ps)) (info zeroed_udev) ;;
    let udev := set_info (snd r) zeroed_udev in
    if negb (fst r =? 0) then
      log_kernel (DevErr "There is no resource for register uio device.") ;;
      fail_release_iomem udev (fst r)
    else
      let udev := set_refcnt 0 udev in
      log_kernel (SysfsCreateGroup sysfs_create_group_ret) ;;
      if negb (sysfs_create_group_ret =? 0)
      then fail_release_iomem udev sysfs_create_group_ret
      else
        log_kernel (UioRegisterDevice DRIVER_NAME DRIVER_VERSION UIO_IRQ_CUSTOM
                      uio_register_device_ret) ;;
        if negb (uio_register_device_ret =? 0) then
          log_kernel (DevErr "Failed to register uio device.") ;;
          fail_remove_group udev uio_register_device_ret
        else
          let udev := set_info (set_minor uio_minor (info udev)) udev in
          modify (fun ps => {| probed_dev := set_driver_data (Some udev) (probed_dev ps);
                               kernel_log := kernel_log ps |}) ;;
          dma_self_test ;;
          ret 0.

(** The state with [new] added to the kernel log. *)
Definition logged (new : list probe_event) (ps : probe_state) : probe_state :=
  {| probed_dev := probed_dev ps; kernel_log := kernel_log ps ++ new |}.

(** The kernel calls of the dma mapping at the end of probe. *)
Definition dma_self_test_log : list probe_event :=
  if dma_alloc_ret =? NULL
  then [DmaAllocCoherent 1024 dma_alloc_ret dma_handle;
        DevInfo "dma mapping failed"]
  else [DmaAllocCoherent 1024 dma_alloc_ret dma_handle;
        Memset dma_alloc_ret 0 1024;
        DevInfo "mapping 1K dma=%#llx host=%p";
        DmaFreeCoherent 1024 dma_alloc_ret dma_handle;
        DevInfo "unmapping 1K dma=%#llx host=%p"].

(** The record probe has built once the regions found are mapped with
    answers [qs]: the filled entries, then zeroed ones. *)
Definition probed_info (found : list resource) (qs : list ptr) : uio_info :=
  {| mem := zip_with region_of found qs
            ++ replicate (MAX_UIO_MAPS - length found) zero_mem;
     minor := 0 |}.


(** ** The polling thread *)

Definition UIO_POLL_INTERVAL : Z := 100.

(** What the thread does: notify the uio device, sleep. *)
Inductive poll_event :=
| UioEventNotify
| Msleep (ms : Z).

(** The loop of [macb_uio_poll] from its [k]-th test of
    [kthread_should_stop] on; [should_stop k] is the answer to that test,
    and [fuel] bounds the number of tests.  [None]: still running when
    the fuel is spent. *)
Fixpoint macb_uio_poll_from (should_stop : nat -> bool) (fuel k : nat)
    (log : list poll_event) : option (Z * list poll_event) :=
  match fuel with
  | O => None
  | S fuel' =>
      if should_stop k then Some (0, log)
      else macb_uio_poll_from should_stop fuel' (S k)
             (log ++ [UioEventNotify; Msleep UIO_POLL_INTERVAL])
  end.

Definition macb_uio_poll (should_stop : nat -> bool) (fuel : nat)
    : option (Z * list poll_event) :=
  macb_uio_poll_from should_stop fuel 0 [].

(** The time slept, in ms. *)
Fixpoint time_slept (log : list poll_event) : Z :=
  match log with
  | [] => 0
  | Msleep ms :: rest => ms + time_slept rest
  | _ :: rest => time_slept rest
  end.

(** ** The [physical_addr] attribute *)

(** [snprintf(buf, size, ...)] for the formatted [text]: the buffer gets
    at most [size - 1] characters of it; the result is the length of the
    whole text. *)
Definition snprintf (size : nat) (text : string) : string * Z :=
  (substring 0 (size - 1) text, Z.of_nat (String.length text)).

(** The loop of [physical_addr_show] over the indices [idx]: it stops at
    the first index that has a resource. *)
Fixpoint first_resource_start (dev : platform_device) (idx : list nat)
    (physical_addr : Z) : Z :=
  match idx with
  | [] => physical_addr
  | i :: rest =>
      match platform_get_resource dev i with
      | None => first_resource_start dev rest physical_addr
      | Some res => res_start res
      end
  end.

(** The text in the buffer and the result.  ["0x%llx"] of an unsigned
    64-bit value is [HexString.of_Z] of it. *)
Definition physical_addr_show (dev : platform_device) : string * Z :=
  let physical_addr := first_resource_start dev (seq 0%nat MAX_UIO_MAPS) 0 in
  snprintf 16 (HexString.of_Z physical_addr).


(** The pointers the log maps and unmaps, and the records it frees, in
    order. *)
Definition mapped_pointer (e : event) : option ptr :=
  match e with
  | Ioremap _ _ p => Some p
  | _ => None
  end.
Definition unmapped_pointer (e : event) : option ptr :=
  match e with
  | Iounmap p => Some p
  | _ => None
  end.
Definition freed_record (e : event) : option (option rte_uio_platform_dev) :=
  match e with
  | Kfree obj => Some obj
  | _ => None
  end.


(** ** Machine integers *)

Lemma wrap_int_small x : INT_MIN <= x <= INT_MAX -> wrap_int x = x.
Proof.
  unfold INT_MIN, INT_MAX, wrap_int. intros H.
  rewrite Z.mod_small by lia. lia.
Qed.

Lemma wrap_int_range x : INT_MIN <= wrap_int x <= INT_MAX.
Proof.
  unfold INT_MIN, INT_MAX, wrap_int.
  pose proof (Z.mod_pos_bound (x + 2 ^ 31) (2 ^ 32) ltac:(lia)). lia.
Qed.

(** ** One call of [open] or [close] *)

Ltac proj_simpl :=
  cbn [result state calls fst snd refcnt poll_task info
       set_refcnt set_poll_task set_info] in *.

Lemma set_refcnt_same u : set_refcnt (refcnt u) u = u.
Proof. destruct u; reflexivity. Qed.

Lemma open_unfold u t :
  macb_uio_open u t =
  let v := wrap_int (refcnt u + 1) in
  if v =? 1
  then let p := kthread_create_ret t in
       (0, set_poll_task p (set_refcnt v u),
        t ++ [KthreadCreate (minor (info u)) p; KthreadBind p 0; WakeUpProcess p])
  else (0, set_refcnt v u, t).
Proof.
  unfold macb_uio_open, bind, atomic_inc_return. cbn zeta.
  destruct (wrap_int (refcnt u + 1) =? 1); cbn; [|reflexivity].
  rewrite <- !app_assoc. reflexivity.
Qed.

Lemma release_unfold u t :
  macb_uio_release u t =
  let v := wrap_int (refcnt u - 1) in
  (0, set_refcnt v u, if v =? 0 then t ++ [KthreadStop (poll_task u)] else t).
Proof.
  unfold macb_uio_release, bind, atomic_dec_and_test. cbn zeta.
  destruct (wrap_int (refcnt u - 1) =? 0); reflexivity.
Qed.

Lemma do_calls_cons c cs u t :
  do_calls (c :: cs) u t =
  let r := do_call c u t in
  let rs := do_calls cs (state r) (calls r) in
  (result r :: result rs, state rs, calls rs).
Proof.
  cbn [do_calls]. unfold bind, ret.
  destruct (do_call c u t) as [[a u1] t1]. cbn.
  destruct (do_calls cs u1 t1) as [[b u2] t2]. reflexivity.
Qed.

(** Every call returns 0 and moves the count by one, with wrap-around. *)
Lemma do_call_count c u t :
  result (do_call c u t) = 0 /\
  refcnt (state (do_call c u t)) = wrap_int (refcnt u + net_opens [c]) /\
  info (state (do_call c u t)) = info u.
Proof.
  destruct c; cbn [do_call net_opens].
  - rewrite open_unfold. cbn zeta. rewrite Z.add_0_r.
    destruct (_ =? 1); cbn; auto.
  - rewrite release_unfold. cbn. rewrite Z.add_0_r. auto.
Qed.

(** As long as the calls cannot wrap the counter, every call returns 0 and
    the count moves by opens minus closes. *)
Lemma do_calls_count cs : forall u t,
  Z.abs (refcnt u) + Z.of_nat (length cs) <= INT_MAX ->
  result (do_calls cs u t) = repeat 0 (length cs) /\
  refcnt (state (do_calls cs u t)) = refcnt u + net_opens cs /\
  info (state (do_calls cs u t)) = info u.
Proof.
  induction cs as [|c cs IH]; intros u t Hb.
  - cbn. split; [reflexivity|]. split; [lia|reflexivity].
  - rewrite do_calls_cons. cbn zeta. cbn [result state calls fst snd].
    destruct (do_call_count c u t) as (Hr & Hc & Hi).
    assert (Hstep : refcnt (state (do_call c u t)) = refcnt u + net_opens [c]).
    { rewrite Hc. apply wrap_int_small.
      unfold INT_MIN, INT_MAX in *. cbn [length] in Hb.
      destruct c; cbn [net_opens]; lia. }
    destruct (IH (state (do_call c u t)) (calls (do_call c u t))) as (IHr & IHc & IHi).
    { rewrite Hstep. cbn [length] in Hb. destruct c; cbn [net_opens]; lia. }
    unfold result, state in *. rewrite Hr, IHr, IHc, IHi, Hstep, Hi.
    split; [reflexivity|]. split; [|reflexivity].
    destruct c; cbn [net_opens]; lia.
Qed.

(** While the count is positive and cannot wrap, opens do nothing but
    count. *)
Lemma opens_while_positive n : forall u t,
  0 < refcnt u -> refcnt u + Z.of_nat n <= INT_MAX ->
  do_calls (repeat Open n) u t =
  (repeat 0 n, set_refcnt (refcnt u + Z.of_nat n) u, t).
Proof.
  induction n as [|n IH]; intros u t Hpos Hb.
  - cbn. rewrite Z.add_0_r, set_refcnt_same. reflexivity.
  - cbn [repeat]. rewrite do_calls_cons. cbn [do_call]. rewrite open_unfold.
    cbn zeta. rewrite wrap_int_small by (unfold INT_MIN, INT_MAX in *; lia).
    destruct (Z.eqb_spec (refcnt u + 1) 1) as [E|_]; [lia|].
    cbn [state calls result fst snd].
    rewrite IH by (cbn [refcnt set_refcnt]; lia).
    cbn [fst snd]. f_equal. f_equal. unfold set_refcnt; cbn. f_equal. lia.
Qed.

(** ** The session: [open] *)

(** C1. An open whose post-increment count is 1 calls [kthread_create],
    [kthread_bind] and [wake_up_process] once each and stores the task in
    [poll_task]; an open whose post-increment count is greater than 1 only
    counts.  So [n] opens from count 0, with [n] small enough for the count
    to stay positive, start exactly the one worker of the first open. *)
Theorem open_starts_one_worker (u : rte_uio_platform_dev) (t : trace) (n : nat) :
  let p := kthread_create_ret t in
  let started := [KthreadCreate (minor (info u)) p; KthreadBind p 0; WakeUpProcess p] in
  (wrap_int (refcnt u + 1) = 1 ->
     macb_uio_open u t = (0, set_poll_task p (set_refcnt 1 u), t ++ started)) /\
  (1 < wrap_int (refcnt u + 1) ->
     macb_uio_open u t = (0, set_refcnt (wrap_int (refcnt u + 1)) u, t)) /\
  (refcnt u = 0 -> Z.of_nat n <= INT_MAX ->
     let r := do_calls (repeat Open n) u t in
     refcnt (state r) = Z.of_nat n /\
     calls r = t ++ (if n is O then [] else started) /\
     poll_task (state r) = (if n is O then poll_task u else p)).
Proof.
  cbn zeta. split; [|split].
  - intros H. rewrite open_unfold. cbn zeta. rewrite H. reflexivity.
  - intros H. rewrite open_unfold. cbn zeta.
    destruct (Z.eqb_spec (wrap_int (refcnt u + 1)) 1); [lia|reflexivity].
  - intros H0 Hn. destruct n as [|n].
    + cbn. rewrite app_nil_r. auto.
    + cbn [repeat]. rewrite do_calls_cons. cbn [do_call]. rewrite open_unfold.
      cbn zeta. rewrite H0. cbn [state calls result fst snd wrap_int].
      change (wrap_int (0 + 1) =? 1) with true. cbn iota.
      change (wrap_int (0 + 1)) with 1.
      rewrite opens_while_positive by (proj_simpl; lia).
      cbn [state calls fst snd refcnt poll_task set_refcnt set_poll_task].
      split; [lia|]. split; reflexivity.
Qed.

(** ** The session: [close] *)

(** C2, as the code has it.  [macb_uio_release] has no error result and no
    guard: a close at count 0 returns 0, moves the count to -1, calls
    nothing and leaves the stored task alone.  After any sequence of calls
    too short to wrap the counter, every call has returned 0 and the count
    is opens minus closes, negative when the closes are more. *)
Theorem close_at_zero_goes_negative
    (u : rte_uio_platform_dev) (t : trace) (cs : list session_call) :
  (refcnt u = 0 -> macb_uio_release u t = (0, set_refcnt (-1) u, t)) /\
  (refcnt u = 0 -> Z.of_nat (length cs) <= INT_MAX ->
     let r := do_calls cs u t in
     result r = repeat 0 (length cs) /\
     refcnt (state r) = net_opens cs).
Proof.
  split.
  - intros H. rewrite release_unfold, H. reflexivity.
  - intros H Hb. cbn zeta.
    destruct (do_calls_count cs u t) as (Hr & Hc & _).
    { rewrite H. cbn. lia. }
    rewrite Hr, Hc, H. auto.
Qed.

(** C3, as the code has it.  A close at a positive count decrements it and
    returns 0.  When the new count is 0 it calls [kthread_stop] on the
    stored task; otherwise it calls nothing.  In both cases [poll_task]
    keeps its value: the handle is not cleared. *)
Theorem close_stops_worker_at_zero (u : rte_uio_platform_dev) (t : trace) :
  0 < refcnt u <= INT_MAX ->
  let r := macb_uio_release u t in
  result r = 0 /\
  state r = set_refcnt (refcnt u - 1) u /\
  poll_task (state r) = poll_task u /\
  calls r = (if refcnt u - 1 =? 0 then t ++ [KthreadStop (poll_task u)] else t).
Proof.
  intros H. cbn zeta. rewrite release_unfold. cbn zeta.
  rewrite wrap_int_small by (unfold INT_MIN, INT_MAX in *; lia).
  cbn. auto.
Qed.

(** C9, where the code goes wrong.  [macb_uio_open] does not test what
    [kthread_create] returned.  When thread creation fails on the 0 to 1
    transition, the error pointer is stored in [poll_task] and the very
    next call, [kthread_bind], is made on it; no [IS_ERR] test and no
    error return come in between. *)
Theorem open_binds_error_pointer (u : rte_uio_platform_dev) (t : trace) :
  refcnt u = 0 ->
  IS_ERR (kthread_create_ret t) = true ->
  let r := macb_uio_open u t in
  exists p : ptr,
    IS_ERR p = true /\
    calls r !! length t = Some (KthreadCreate (minor (info u)) p) /\
    calls r !! S (length t) = Some (KthreadBind p 0) /\
    poll_task (state r) = p.
Proof.
  intros H0 Herr. cbn zeta. exists (kthread_create_ret t).
  rewrite open_unfold, H0. cbn zeta.
  change (wrap_int (0 + 1) =? 1) with true. cbn iota. proj_simpl.
  split; [exact Herr|].
  split; [|split; [|reflexivity]].
  - rewrite lookup_app_r by lia. rewrite Nat.sub_diag. reflexivity.
  - rewrite lookup_app_r by lia.
    replace (S (length t) - length t)%nat with 1%nat by lia. reflexivity.
Qed.

(** ** The session invariant *)

Lemma workers_running_app t1 t2 :
  workers_running (t1 ++ t2) = workers_running t1 + workers_running t2.
Proof.
  induction t1 as [|e t1 IH]; cbn [app workers_running]; lia.
Qed.

Lemma last_created_app t1 t2 : forall d,
  last_created (t1 ++ t2) d = last_created t2 (last_created t1 d).
Proof.
  induction t1 as [|e t1 IH]; intros d; cbn [app last_created]; auto.
Qed.

Lemma session_inv_step c u t :
  (forall tr, valid_task (kthread_create_ret tr)) ->
  INT_MIN < refcnt u < INT_MAX ->
  session_inv u t ->
  session_inv (state (do_call c u t)) (calls (do_call c u t)).
Proof.
  intros Hk Hb (Hrun & Hlast & Hval). unfold session_inv.
  destruct c; cbn [do_call].
  - rewrite open_unfold. cbn zeta.
    rewrite wrap_int_small by (unfold INT_MIN, INT_MAX in *; lia).
    destruct (Z.eqb_spec (refcnt u + 1) 1) as [E|E]; proj_simpl.
    + rewrite workers_running_app, last_created_app, Hrun, E.
      replace (0 <? refcnt u) with false by (symmetry; apply Z.ltb_ge; lia).
      cbn. auto.
    + rewrite Hrun. split; [|split; [assumption|]].
      * destruct (Z.ltb_spec 0 (refcnt u)), (Z.ltb_spec 0 (refcnt u + 1)); lia.
      * intros H. apply Hval. lia.
  - rewrite release_unfold. cbn zeta.
    rewrite wrap_int_small by (unfold INT_MIN, INT_MAX in *; lia).
    proj_simpl.
    destruct (Z.eqb_spec (refcnt u - 1) 0) as [E|E].
    + rewrite workers_running_app, last_created_app, Hrun, E.
      replace (0 <? refcnt u) with true by (symmetry; apply Z.ltb_lt; lia).
      cbn. split; [reflexivity|]. split; [assumption|lia].
    + rewrite Hrun. split; [|split; [assumption|]].
      * destruct (Z.ltb_spec 0 (refcnt u)), (Z.ltb_spec 0 (refcnt u - 1)); lia.
      * intros H. apply Hval. lia.
Qed.

Lemma session_inv_calls cs : forall u t,
  (forall tr, valid_task (kthread_create_ret tr)) ->
  Z.abs (refcnt u) + Z.of_nat (length cs) <= INT_MAX ->
  session_inv u t ->
  session_inv (state (do_calls cs u t)) (calls (do_calls cs u t)).
Proof.
  induction cs as [|c cs IH]; intros u t Hk Hb Hinv.
  - exact Hinv.
  - rewrite do_calls_cons. cbn zeta. cbn [state calls fst snd].
    cbn [length] in Hb.
    apply IH; [assumption| |].
    + destruct (do_call_count c u t) as (_ & Hc & _). rewrite Hc.
      rewrite wrap_int_small
        by (unfold INT_MIN, INT_MAX in *; destruct c; cbn [net_opens]; lia).
      destruct c; cbn [net_opens]; lia.
    + apply session_inv_step; [assumption| |assumption].
      unfold INT_MIN, INT_MAX in *. lia.
Qed.

(** C4, as the code has it.  Take any sequence of opens and closes too
    short to wrap the counter, from the fresh state (count 0, no task
    stored, nothing called yet), with thread creation succeeding.  Then a
    worker is started and not yet stopped exactly when the count is
    positive, and while the count is positive the stored task is a live
    one.  The stored task is always the one created last, or [NULL] when
    none was created: a close does not clear it. *)
Theorem worker_running_iff_count_positive (cs : list session_call) (i : uio_info) :
  (forall tr, valid_task (kthread_create_ret tr)) ->
  Z.of_nat (length cs) <= INT_MAX ->
  let r := do_calls cs (fresh_udev i) [] in
  (workers_running (calls r) = 1 <-> 0 < refcnt (state r)) /\
  (workers_running (calls r) = 0 <-> refcnt (state r) <= 0) /\
  (0 < refcnt (state r) -> valid_task (poll_task (state r))) /\
  poll_task (state r) = last_created (calls r) NULL.
Proof.
  intros Hk Hb. cbn zeta.
  destruct (session_inv_calls cs (fresh_udev i) [] Hk) as (Hrun & Hlast & Hval).
  { cbn. lia. }
  { unfold session_inv. cbn. split; [reflexivity|]. split; [reflexivity|lia]. }
  rewrite Hrun.
  destruct (Z.ltb_spec 0 (refcnt (state (do_calls cs (fresh_udev i) [])))).
  - split; [|split; [|split]]; [split; lia | split; lia | exact Hval | exact Hlast].
  - split; [|split; [|split]]; [split; lia | split; lia | exact Hval | exact Hlast].
Qed.

(** ** Pages *)

Lemma PAGE_SIZE_pow2 : 0 <= PAGE_SHIFT < 64 -> PAGE_SIZE = 2 ^ PAGE_SHIFT.
Proof.
  intros Hs. unfold PAGE_SIZE, u64. rewrite Z.shiftl_1_l.
  apply Z.mod_small. split; [apply Z.pow_nonneg; lia|].
  apply Z.pow_lt_mono_r; lia.
Qed.

Lemma PAGE_SIZE_pos : 0 <= PAGE_SHIFT < 64 -> 0 < PAGE_SIZE.
Proof. intros Hs. rewrite PAGE_SIZE_pow2 by lia. apply Z.pow_pos_nonneg; lia. Qed.

(** [x & PAGE_MASK] truncates a 64-bit [x] down to the page boundary. *)
Lemma land_PAGE_MASK x :
  0 <= PAGE_SHIFT < 64 -> 0 <= x < 2 ^ 64 -> Z.land x PAGE_MASK = page_floor x.
Proof.
  intros Hs Hx. unfold PAGE_MASK, page_floor, u64. rewrite PAGE_SIZE_pow2 by lia.
  replace (2 ^ PAGE_SHIFT - 1) with (Z.ones PAGE_SHIFT)
    by (rewrite Z.ones_equiv; lia).
  rewrite <- (Z.land_ones _ 64) by lia.
  rewrite (Z.land_comm (Z.lnot _)), Z.land_assoc.
  rewrite Z.land_ones, Z.mod_small by lia.
  rewrite <- Z.ldiff_land, Z.ldiff_ones_r by lia.
  rewrite Z.shiftl_mul_pow2, Z.shiftr_div_pow2 by lia. lia.
Qed.

(** [page_floor x] is the page boundary at or below [x]. *)
Lemma page_floor_spec x :
  0 <= PAGE_SHIFT < 64 ->
  page_floor x mod PAGE_SIZE = 0 /\ page_floor x <= x < page_floor x + PAGE_SIZE.
Proof.
  intros Hs. unfold page_floor. pose proof (PAGE_SIZE_pos Hs) as Hp.
  split.
  - rewrite Z.mul_comm. apply Z.mod_mul. lia.
  - pose proof (Z.mul_div_le x PAGE_SIZE Hp).
    pose proof (Z.mul_succ_div_gt x PAGE_SIZE Hp). lia.
Qed.

(** [page_ceil x] is the least page multiple at or above [x]. *)
Lemma page_ceil_spec x :
  0 <= PAGE_SHIFT < 64 ->
  page_ceil x mod PAGE_SIZE = 0 /\ x <= page_ceil x < x + PAGE_SIZE.
Proof.
  intros Hs. unfold page_ceil. pose proof (PAGE_SIZE_pos Hs) as Hp.
  split.
  - rewrite Z.mul_comm. apply Z.mod_mul. lia.
  - pose proof (Z.mul_div_le (x + PAGE_SIZE - 1) PAGE_SIZE Hp).
    pose proof (Z.mul_succ_div_gt (x + PAGE_SIZE - 1) PAGE_SIZE Hp). lia.
Qed.

(** [PAGE_ALIGN] rounds up to a page multiple, in 64-bit arithmetic. *)
Lemma PAGE_ALIGN_ceil x :
  0 <= PAGE_SHIFT < 64 -> PAGE_ALIGN x = u64 (page_ceil x).
Proof.
  intros Hs. unfold PAGE_ALIGN.
  rewrite land_PAGE_MASK by (try apply Z.mod_pos_bound; lia).
  unfold page_floor, page_ceil, u64.
  replace (x + (PAGE_SIZE - 1)) with (x + PAGE_SIZE - 1) by lia.
  set (z := x + PAGE_SIZE - 1).
  pose proof (PAGE_SIZE_pos Hs) as Hp.
  assert (E : 2 ^ 64 = PAGE_SIZE * 2 ^ (64 - PAGE_SHIFT)).
  { rewrite PAGE_SIZE_pow2, <- Z.pow_add_r by lia. f_equal. lia. }
  assert (Hq : 0 < 2 ^ (64 - PAGE_SHIFT)) by (apply Z.pow_pos_nonneg; lia).
  rewrite E.
  rewrite Z.mul_mod_distr_l by lia.
  rewrite Z.rem_mul_r by lia.
  f_equal.
  rewrite (Z.mul_comm PAGE_SIZE), Z.div_add by lia.
  rewrite Z.div_small by (apply Z.mod_pos_bound; lia). lia.
Qed.

(** ** Regions *)

Lemma alter_as_insert {A} (f : A -> A) (l : list A) : forall (k : nat) (x : A),
  l !! k = Some x -> alter f k l = <[k:=f x]> l.
Proof.
  induction l as [|y l IH]; intros [|k] x H; try discriminate.
  - injection H as ->. reflexivity.
  - cbn. f_equal. apply IH. exact H.
Qed.

(** One turn of the loop on an index with a resource: entry [iom] is
    filled, [ioremap] is called once, [iom] moves on. *)
Lemma setup_body_present dev i iom inf t res :
  platform_get_resource dev i = Some res ->
  (iom < length (mem inf))%nat ->
  let p := ioremap_ret t (Z.land (res_start res) PAGE_MASK)
                         (PAGE_ALIGN (resource_size res)) in
  setup_iomem_body dev i iom inf t =
  (S iom, set_mem (<[iom:=region_of res p]> (mem inf)) inf,
   t ++ [ioremap_of res p]).
Proof.
  intros Hres Hlt. cbn zeta. unfold setup_iomem_body. rewrite Hres.
  destruct (lookup_lt_is_Some_2 (mem inf) iom Hlt) as [m0 Hm0].
  unfold bind, modify_mem, modify, get, ioremap, ret, mem_at.
  cbn [mem set_mem].
  rewrite !list_alter_alter_eq.
  rewrite !list_lookup_alter_eq, Hm0. cbn [fmap option_fmap option_map default].
  cbn [addr size set_name set_size set_addr set_memtype compose].
  f_equal. f_equal. unfold set_mem. cbn [mem minor]. f_equal.
  erewrite alter_as_insert by exact Hm0. reflexivity.
Qed.

Lemma setup_body_absent dev i iom inf t :
  platform_get_resource dev i = None ->
  setup_iomem_body dev i iom inf t = (iom, inf, t).
Proof. intros H. unfold setup_iomem_body. rewrite H. reflexivity. Qed.

Lemma set_mem_same inf : set_mem (mem inf) inf = inf.
Proof. destruct inf; reflexivity. Qed.

(** The loop over any indices: the entries from [iom] on are filled with
    the resources found, in order, one [ioremap] call each; the entries
    before and after stay. *)
Lemma setup_loop_run dev idx : forall iom inf t,
  (iom + length idx <= length (mem inf))%nat ->
  let found := found_resources dev idx in
  exists ps : list ptr,
    length ps = length found /\
    for_each idx (setup_iomem_body dev) iom inf t =
    ((iom + length found)%nat,
     set_mem (take iom (mem inf) ++ zip_with region_of found ps
              ++ drop (iom + length found) (mem inf)) inf,
     t ++ zip_with ioremap_of found ps).
Proof.
  induction idx as [|i idx IH]; intros iom inf t Hlen; cbn zeta.
  - exists []. split; [reflexivity|]. cbn.
    rewrite Nat.add_0_r, take_drop, set_mem_same, app_nil_r. reflexivity.
  - cbn [length] in Hlen. cbn [for_each]. unfold bind at 1.
    unfold found_resources. cbn [omap list_omap].
    fold (found_resources dev idx).
    destruct (platform_get_resource dev i) as [res|] eqn:Hres.
    + rewrite (setup_body_present dev i iom inf t res Hres) by lia.
      set (p := ioremap_ret t _ _).
      destruct (IH (S iom) (set_mem (<[iom:=region_of res p]> (mem inf)) inf)
                  (t ++ [ioremap_of res p])) as (ps & Hps & Hrun).
      { cbn [mem set_mem]. rewrite length_insert. lia. }
      exists (p :: ps). split; [cbn; lia|].
      rewrite Hrun. cbn [mem set_mem length zip_with].
      destruct (lookup_lt_is_Some_2 (mem inf) iom ltac:(lia)) as [m0 Hm0].
      rewrite (take_S_r _ _ (region_of res p))
        by (apply list_lookup_insert_eq; lia).
      rewrite take_insert_ge, drop_insert_lt by lia.
      rewrite <- !app_assoc. cbn [app].
      replace (S iom + length (found_resources dev idx))%nat
        with (iom + S (length (found_resources dev idx)))%nat by lia.
      reflexivity.
    + rewrite (setup_body_absent dev i iom inf t Hres).
      destruct (IH iom inf t) as (ps & Hps & Hrun); [lia|].
      exists ps. split; [exact Hps|exact Hrun].
Qed.

Lemma found_resources_length dev idx :
  (length (found_resources dev idx) <= length idx)%nat.
Proof.
  unfold found_resources.
  induction idx as [|i idx IH]; cbn [omap list_omap length]; [lia|].
  destruct (platform_get_resource dev i); cbn [length]; lia.
Qed.

(** The whole loop of [macb_uio_setup_iomem], entry by entry. *)
Lemma setup_loop_entries dev inf t :
  length (mem inf) = MAX_UIO_MAPS ->
  let found := found_resources dev (seq 0%nat MAX_UIO_MAPS) in
  let r := setup_iomem_loop dev inf t in
  result r = length found /\
  length (mem (state r)) = MAX_UIO_MAPS /\
  forall (k : nat) (res : resource),
    found !! k = Some res ->
    exists p : ptr,
      mem (state r) !! k = Some (region_of res p) /\
      calls r !! (length t + k)%nat = Some (ioremap_of res p).
Proof.
  intros Hlen. cbn zeta. unfold setup_iomem_loop.
  destruct (setup_loop_run dev (seq 0%nat MAX_UIO_MAPS) 0%nat inf t)
    as (ps & Hps & Hrun).
  { rewrite length_seq. lia. }
  cbn zeta in Hps. rewrite Hrun. cbn [result state calls fst snd mem set_mem].
  set (found := found_resources dev (seq 0%nat MAX_UIO_MAPS)) in *.
  assert (Hfound : (length found <= MAX_UIO_MAPS)%nat).
  { unfold found. etransitivity; [apply found_resources_length|].
    rewrite length_seq. lia. }
  split; [reflexivity|]. split.
  - rewrite take_0. cbn [app]. rewrite length_app, length_zip_with, length_drop.
    cbn [Nat.add]. lia.
  - intros k res Hk.
    assert (Hlt : (k < length ps)%nat)
      by (rewrite Hps; eapply lookup_lt_Some; exact Hk).
    destruct (lookup_lt_is_Some_2 ps k Hlt) as [p Hp].
    exists p. rewrite take_0. cbn [app Nat.add].
    split.
    + apply lookup_app_l_Some, lookup_zip_with_Some. eauto.
    + rewrite lookup_app_r by lia.
      replace (length t + k - length t)%nat with k by lia.
      apply lookup_zip_with_Some. eauto.
Qed.

(** The loop of [macb_uio_setup_iomem] in full: what it returns, the
    array it leaves and the calls it makes, given the answers [ps] of
    [ioremap]. *)
Lemma setup_loop_full dev inf t :
  length (mem inf) = MAX_UIO_MAPS ->
  let found := found_resources dev (seq 0%nat MAX_UIO_MAPS) in
  exists ps : list ptr,
    length ps = length found /\
    (length found <= MAX_UIO_MAPS)%nat /\
    setup_iomem_loop dev inf t =
    (length found,
     set_mem (zip_with region_of found ps ++ drop (length found) (mem inf)) inf,
     t ++ zip_with ioremap_of found ps).
Proof.
  intros Hlen. cbn zeta. unfold setup_iomem_loop.
  destruct (setup_loop_run dev (seq 0%nat MAX_UIO_MAPS) 0%nat inf t)
    as (ps & Hps & Hrun).
  { rewrite length_seq. lia. }
  exists ps. split; [exact Hps|]. split.
  - etransitivity; [apply found_resources_length|]. rewrite length_seq. lia.
  - rewrite Hrun, take_0. reflexivity.
Qed.


(** C5, as the code has it.  [macb_uio_setup_iomem] does not test what
    [ioremap] returned.  Every index with a resource fills the next entry,
    whose [internal_addr] is what the [ioremap] call for it returned, be it
    [NULL]; and the result is [-ENOENT] exactly when no index below
    [MAX_UIO_MAPS] has a resource. *)
Theorem setup_keeps_failed_mappings
    (dev : platform_device) (inf : uio_info) (t : trace) :
  length (mem inf) = MAX_UIO_MAPS ->
  let found := found_resources dev (seq 0%nat MAX_UIO_MAPS) in
  let r := macb_uio_setup_iomem dev inf t in
  result r = (if found is [] then - ENOENT else 0) /\
  forall (k : nat) (res : resource),
    found !! k = Some res ->
    exists p : ptr,
      mem (state r) !! k = Some (region_of res p) /\
      calls r !! (length t + k)%nat = Some (ioremap_of res p).
Proof.
  intros Hlen. cbn zeta.
  destruct (setup_loop_entries dev inf t Hlen) as (Hn & _ & Hent).
  unfold macb_uio_setup_iomem, bind, ret.
  destruct (setup_iomem_loop dev inf t) as [[iom inf1] t1].
  cbn [result state calls fst snd] in *. split; [|exact Hent].
  rewrite Hn.
  destruct (found_resources dev (seq 0%nat MAX_UIO_MAPS)); reflexivity.
Qed.

(** ** Unmapping *)

Lemma live_mappings_cons m l :
  live_mappings (m :: l) =
  if internal_addr m =? NULL then live_mappings l
  else internal_addr m :: live_mappings l.
Proof.
  unfold live_mappings. cbn [fmap list_fmap]. rewrite filter_cons.
  destruct (Z.eqb_spec (internal_addr m) NULL) as [E|E];
    destruct (decide (internal_addr m <> NULL)); try reflexivity; contradiction.
Qed.

(** The loop of [macb_uio_release_iomem] from index [i] on, [n] turns. *)
Lemma release_loop_run inf n : forall (i : nat) (t : trace),
  for_each (seq i n)
    (fun k (_ : unit) =>
       inf1 <- get ;;
       if negb (internal_addr (mem_at inf1 k) =? NULL)
       then iounmap (internal_addr (mem_at inf1 k))
       else ret tt) tt inf t =
  (tt, inf, t ++ (Iounmap <$> live_mappings (take n (drop i (mem inf))))).
Proof.
  induction n as [|n IH]; intros i t.
  - cbn. rewrite app_nil_r. reflexivity.
  - cbn [seq for_each]. unfold bind at 1. unfold bind at 1. unfold get at 1.
    unfold mem_at at 1 2.
    destruct (mem inf !! i) as [m|] eqn:Hm.
    + rewrite (drop_S _ _ _ Hm). cbn [take from_option id].
      rewrite live_mappings_cons.
      destruct (internal_addr m =? NULL); cbn [negb].
      * unfold ret at 1. apply IH.
      * unfold iounmap, call. rewrite IH. cbn [fmap list_fmap].
        rewrite <- app_assoc. reflexivity.
    + cbn [from_option internal_addr zero_mem].
      change (negb (NULL =? NULL)) with false. cbn iota. unfold ret at 1.
      rewrite IH. apply lookup_ge_None_1 in Hm.
      rewrite !drop_ge by lia. rewrite !take_nil. reflexivity.
Qed.

Lemma release_iomem_run inf t :
  macb_uio_release_iomem inf t =
  (tt, inf, t ++ (Iounmap <$> live_mappings (take MAX_UIO_MAPS (mem inf)))).
Proof.
  unfold macb_uio_release_iomem. rewrite release_loop_run. reflexivity.
Qed.

(** C6, as the code has it.  [macb_uio_release_iomem] calls [iounmap] on
    the [internal_addr] of exactly the entries where it is not [NULL], in
    order, and calls nothing for the others.  It writes nothing: the
    pointers stay in the entries, so a second call on the same entries
    makes the same [iounmap] calls again. *)
Theorem release_iomem_unmaps_nonnull (inf : uio_info) (t : trace) :
  let unmaps := Iounmap <$> live_mappings (take MAX_UIO_MAPS (mem inf)) in
  let r := macb_uio_release_iomem inf t in
  calls r = t ++ unmaps /\
  state r = inf /\
  calls (macb_uio_release_iomem (state r) (calls r)) = (t ++ unmaps) ++ unmaps.
Proof.
  cbn zeta. rewrite !release_iomem_run. cbn [state calls fst snd]. auto.
Qed.

(** ** Removal *)

(** C7, as the code has it.  When a device record is attached,
    [macb_uio_remove] runs [macb_uio_release] once, whatever the count: the
    record that is freed has its count one lower.  At count 0 that moves
    the count to -1 and calls nothing; at count 1 it stops the worker.
    Then come [sysfs_remove_group], [uio_unregister_device], the unmapping
    of every mapped region, the clearing of the driver data and [kfree];
    the result is 0. *)
Theorem remove_always_closes_once
    (dev : platform_device) (u : rte_uio_platform_dev) (t : trace) :
  driver_data dev = Some u ->
  INT_MIN < refcnt u <= INT_MAX ->
  let r := macb_uio_remove dev t in
  result r = 0 /\
  state r = set_driver_data None dev /\
  calls r =
    (if refcnt u =? 1 then t ++ [KthreadStop (poll_task u)] else t)
    ++ [SysfsRemoveGroup; UioUnregisterDevice]
    ++ (Iounmap <$> live_mappings (take MAX_UIO_MAPS (mem (info u))))
    ++ [Kfree (Some (set_refcnt (refcnt u - 1) u))].
Proof.
  intros Hd Hb. cbn zeta.
  destruct dev as [resources attached]. cbn [driver_data] in Hd. subst attached.
  unfold macb_uio_remove, bind, platform_get_drvdata, on_udev, on_info.
  cbn [driver_data set_driver_data].
  rewrite release_unfold. cbn zeta.
  rewrite wrap_int_small by (unfold INT_MIN, INT_MAX in *; lia).
  unfold sysfs_remove_group, uio_unregister_device, call.
  cbn [driver_data set_driver_data info set_refcnt].
  rewrite release_iomem_run.
  unfold platform_set_drvdata, modify, kfree, call, ret.
  cbn [result state calls fst snd driver_data set_driver_data mem_resource
       set_info info mem refcnt poll_task].
  split; [reflexivity|]. split; [reflexivity|].
  replace (refcnt u - 1 =? 0) with (refcnt u =? 1)
    by (destruct (Z.eqb_spec (refcnt u) 1), (Z.eqb_spec (refcnt u - 1) 0); lia).
  rewrite <- !app_assoc. reflexivity.
Qed.

(** C10. Without a device record attached, [macb_uio_remove] returns
    [-EINVAL], calls nothing and changes nothing. *)
Theorem remove_without_record (dev : platform_device) (t : trace) :
  driver_data dev = None ->
  macb_uio_remove dev t = (- EINVAL, dev, t).
Proof.
  intros Hd. unfold macb_uio_remove, bind, platform_get_drvdata.
  rewrite Hd. reflexivity.
Qed.

(** ** More on the session *)

Lemma wrap_int_inc_dec x :
  INT_MIN <= x <= INT_MAX -> wrap_int (wrap_int (x + 1) - 1) = x.
Proof.
  unfold INT_MIN, INT_MAX, wrap_int. intros H.
  replace ((x + 1 + 2 ^ 31) mod 2 ^ 32 - 2 ^ 31 - 1 + 2 ^ 31)
    with ((x + 1 + 2 ^ 31) mod 2 ^ 32 - 1) by lia.
  rewrite Zminus_mod_idemp_l.
  replace (x + 1 + 2 ^ 31 - 1) with (x + 2 ^ 31) by lia.
  rewrite Z.mod_small by lia. lia.
Qed.

Lemma wrap_int_inc_is_1 x :
  INT_MIN <= x <= INT_MAX -> (wrap_int (x + 1) =? 1) = (x =? 0).
Proof.
  intros H. destruct (Z.eq_dec x INT_MAX) as [->|Hne]; [reflexivity|].
  rewrite wrap_int_small by (unfold INT_MIN, INT_MAX in *; lia).
  destruct (Z.eqb_spec (x + 1) 1), (Z.eqb_spec x 0); lia.
Qed.

(** X1. An open followed by a close puts the count back, also across the
    wrap-around of the counter, and leaves the regions alone.  From count 0
    the pair creates, binds, wakes and stops one worker; from any other
    count it calls nothing. *)
Theorem open_close_round_trip (u : rte_uio_platform_dev) (t : trace) :
  INT_MIN <= refcnt u <= INT_MAX ->
  let p := kthread_create_ret t in
  let r1 := macb_uio_open u t in
  let r2 := macb_uio_release (state r1) (calls r1) in
  result r1 = 0 /\ result r2 = 0 /\
  refcnt (state r2) = refcnt u /\
  info (state r2) = info u /\
  poll_task (state r2) = (if refcnt u =? 0 then p else poll_task u) /\
  calls r2 =
    t ++ (if refcnt u =? 0
          then [KthreadCreate (minor (info u)) p; KthreadBind p 0;
                WakeUpProcess p; KthreadStop p]
          else []).
Proof.
  intros Hr. cbn zeta. rewrite open_unfold. cbn zeta.
  rewrite (wrap_int_inc_is_1 _ Hr).
  destruct (Z.eqb_spec (refcnt u) 0) as [E|E].
  - rewrite release_unfold. proj_simpl. rewrite E.
    change (wrap_int (wrap_int (0 + 1) - 1) =? 0) with true.
    change (wrap_int (wrap_int (0 + 1) - 1)) with 0.
    cbn iota. rewrite <- app_assoc. cbn. auto 10.
  - rewrite release_unfold. proj_simpl. rewrite (wrap_int_inc_dec _ Hr).
    destruct (Z.eqb_spec (refcnt u) 0) as [E'|_]; [contradiction|].
    rewrite app_nil_r. auto 10.
Qed.

Lemma do_calls_app cs1 cs2 u t :
  do_calls (cs1 ++ cs2) u t =
  let r1 := do_calls cs1 u t in
  let r2 := do_calls cs2 (state r1) (calls r1) in
  (result r1 ++ result r2, state r2, calls r2).
Proof.
  revert u t. induction cs1 as [|c cs1 IH]; intros u t.
  - cbn. destruct (do_calls cs2 u t) as [[a s] l]. reflexivity.
  - cbn [app]. rewrite !do_calls_cons. cbn zeta. rewrite IH. reflexivity.
Qed.

(** Closes at a count of 0 or below call nothing. *)
Lemma closes_at_or_below_zero n : forall u t,
  refcnt u <= 0 -> INT_MIN <= refcnt u - Z.of_nat n ->
  do_calls (repeat Close n) u t =
  (repeat 0 n, set_refcnt (refcnt u - Z.of_nat n) u, t).
Proof.
  induction n as [|n IH]; intros u t Hle Hb.
  - cbn. rewrite Z.sub_0_r, set_refcnt_same. reflexivity.
  - cbn [repeat]. rewrite do_calls_cons. cbn [do_call]. rewrite release_unfold.
    cbn zeta. rewrite wrap_int_small by (unfold INT_MIN, INT_MAX in *; lia).
    destruct (Z.eqb_spec (refcnt u - 1) 0) as [E|_]; [lia|].
    cbn [state calls result fst snd].
    rewrite IH by (cbn [refcnt set_refcnt]; lia).
    cbn [fst snd]. f_equal. f_equal. unfold set_refcnt; cbn. f_equal. lia.
Qed.

(** Opens that leave the count at 0 or below call nothing. *)
Lemma opens_up_to_zero n : forall u t,
  INT_MIN <= refcnt u -> refcnt u + Z.of_nat n <= 0 ->
  do_calls (repeat Open n) u t =
  (repeat 0 n, set_refcnt (refcnt u + Z.of_nat n) u, t).
Proof.
  induction n as [|n IH]; intros u t Hb Hle.
  - cbn. rewrite Z.add_0_r, set_refcnt_same. reflexivity.
  - cbn [repeat]. rewrite do_calls_cons. cbn [do_call]. rewrite open_unfold.
    cbn zeta. rewrite wrap_int_small by (unfold INT_MIN, INT_MAX in *; lia).
    destruct (Z.eqb_spec (refcnt u + 1) 1) as [E|_]; [lia|].
    cbn [state calls result fst snd].
    rewrite IH by (cbn [refcnt set_refcnt]; lia).
    cbn [fst snd]. f_equal. f_equal. unfold set_refcnt; cbn. f_equal. lia.
Qed.

(** X2. After [k] closes that nothing had opened, the next [k] opens start no
    worker: the count is back at 0, [k] consumers hold the device, and
    nothing was called. *)
Theorem opens_after_excess_closes_start_nothing
    (u : rte_uio_platform_dev) (t : trace) (k : nat) :
  refcnt u = 0 ->
  Z.of_nat k <= 2 ^ 31 ->
  do_calls (repeat Close k ++ repeat Open k) u t = (repeat 0 (k + k), u, t).
Proof.
  intros H0 Hk. rewrite do_calls_app. cbn zeta.
  rewrite closes_at_or_below_zero by (unfold INT_MIN; lia).
  cbn [state calls result fst snd].
  rewrite opens_up_to_zero by (cbn [refcnt set_refcnt]; unfold INT_MIN; lia).
  cbn [state calls result fst snd refcnt set_refcnt].
  rewrite <- repeat_app. f_equal. f_equal.
  replace (refcnt u - Z.of_nat k + Z.of_nat k) with (refcnt u) by lia.
  destruct u; reflexivity.
Qed.

(** What a session touches and calls. *)
Lemma do_calls_footprint cs : forall u t,
  info (state (do_calls cs u t)) = info u /\
  exists new : trace,
    calls (do_calls cs u t) = t ++ new /\ forallb is_thread_call new = true.
Proof.
  induction cs as [|c cs IH]; intros u t.
  - split; [reflexivity|]. exists []. cbn. rewrite app_nil_r. auto.
  - rewrite do_calls_cons. cbn zeta. cbn [state calls fst snd].
    destruct (IH (state (do_call c u t)) (calls (do_call c u t)))
      as (Hi & new & Hc & Hf).
    rewrite Hi, Hc.
    assert (Hstep : info (state (do_call c u t)) = info u /\
                    exists n1, calls (do_call c u t) = t ++ n1 /\
                               forallb is_thread_call n1 = true).
    { destruct c; cbn [do_call].
      - rewrite open_unfold. cbn zeta. destruct (_ =? 1); proj_simpl.
        + split; [reflexivity|]. eexists. split; reflexivity.
        + split; [reflexivity|]. exists []. rewrite app_nil_r. auto.
      - rewrite release_unfold. cbn zeta. proj_simpl.
        split; [reflexivity|]. destruct (_ =? 0).
        + eexists. split; reflexivity.
        + exists []. rewrite app_nil_r. auto. }
    destruct Hstep as (Hi1 & n1 & Hc1 & Hf1). rewrite Hi1, Hc1.
    split; [reflexivity|]. exists (n1 ++ new).
    rewrite app_assoc, forallb_app, Hf1, Hf. auto.
Qed.

(** X3. Opens and closes never touch the regions, and the only kernel calls
    they make are calls on the polling thread. *)
Theorem session_leaves_regions_alone
    (cs : list session_call) (u : rte_uio_platform_dev) (t : trace) :
  let r := do_calls cs u t in
  info (state r) = info u /\
  exists new : trace,
    calls r = t ++ new /\ forallb is_thread_call new = true.
Proof.
  cbn zeta. destruct (do_calls_footprint cs u t) as (Hinfo & new & Hcalls & Hthr).
  split; [exact Hinfo|]. exists new. split; [exact Hcalls|exact Hthr].
Qed.

Lemma targets_latest_app t1 : forall t2 last,
  targets_latest last (t1 ++ t2) <->
  targets_latest last t1 /\ targets_latest (last_created t1 last) t2.
Proof using.
  induction t1 as [|e t1 IH]; intros t2 last; cbn [app].
  - cbn. split; [intros H; split; [exact I|exact H]|intros [_ H]; exact H].
  - destruct e; cbn [targets_latest last_created created_task from_option id];
      rewrite IH;
      (split; intros H;
       repeat match goal with
              | H : _ /\ _ |- _ => destruct H
              end;
       repeat split; assumption).
Qed.

Lemma targets_latest_step c u t :
  (forall tr, valid_task (kthread_create_ret tr)) ->
  INT_MIN < refcnt u < INT_MAX ->
  session_inv u t ->
  targets_latest NULL t ->
  targets_latest NULL (calls (do_call c u t)).
Proof.
  intros Hk Hb (Hrun & Hlast & Hval) Ht.
  destruct c; cbn [do_call].
  - rewrite open_unfold. cbn zeta.
    destruct (_ =? 1); proj_simpl; [|exact Ht].
    apply targets_latest_app. split; [exact Ht|].
    destruct (Hk t) as [Hnn _]. cbn. auto.
  - rewrite release_unfold. cbn zeta. proj_simpl.
    rewrite wrap_int_small by (unfold INT_MIN, INT_MAX in *; lia).
    destruct (Z.eqb_spec (refcnt u - 1) 0) as [E|_]; [|exact Ht].
    apply targets_latest_app. split; [exact Ht|].
    destruct Hval as [Hnn _]; [lia|]. cbn. auto.
Qed.

Lemma targets_latest_calls cs : forall u t,
  (forall tr, valid_task (kthread_create_ret tr)) ->
  Z.abs (refcnt u) + Z.of_nat (length cs) <= INT_MAX ->
  session_inv u t ->
  targets_latest NULL t ->
  targets_latest NULL (calls (do_calls cs u t)).
Proof.
  induction cs as [|c cs IH]; intros u t Hk Hb Hinv Ht.
  - exact Ht.
  - rewrite do_calls_cons. cbn zeta. cbn [state calls fst snd].
    cbn [length] in Hb.
    assert (Hr : INT_MIN < refcnt u < INT_MAX)
      by (unfold INT_MIN, INT_MAX in *; lia).
    apply IH; [assumption| | |].
    + destruct (do_call_count c u t) as (_ & Hc & _). rewrite Hc.
      rewrite wrap_int_small
        by (unfold INT_MIN, INT_MAX in *; destruct c; cbn [net_opens]; lia).
      destruct c; cbn [net_opens]; lia.
    + apply session_inv_step; assumption.
    + apply targets_latest_step; assumption.
Qed.

(** X4. In any session from the fresh record, with thread creation
    succeeding and the counter not wrapping, every [kthread_bind],
    [wake_up_process] and [kthread_stop] is given the task returned by the
    latest [kthread_create]: no call is made on [NULL] or on a task of an
    earlier worker. *)
Theorem thread_calls_target_latest_task (cs : list session_call) (i : uio_info) :
  (forall tr, valid_task (kthread_create_ret tr)) ->
  Z.of_nat (length cs) <= INT_MAX ->
  targets_latest NULL (calls (do_calls cs (fresh_udev i) [])).
Proof.
  intros Hk Hb. apply targets_latest_calls; [assumption| | |].
  - cbn. lia.
  - unfold session_inv. cbn. split; [reflexivity|]. split; [reflexivity|lia].
  - exact I.
Qed.

(** ** More on the regions *)

(** X5. [macb_uio_setup_iomem] fills entries from index 0 on and no others:
    the array keeps its length, the count of filled entries is at most
    [MAX_UIO_MAPS], and every entry at or above that count, like the minor
    number, is as it was. *)
Theorem setup_touches_only_filled_entries
    (dev : platform_device) (inf : uio_info) (t : trace) :
  length (mem inf) = MAX_UIO_MAPS ->
  let r := setup_iomem_loop dev inf t in
  (result r <= MAX_UIO_MAPS)%nat /\
  length (mem (state r)) = MAX_UIO_MAPS /\
  minor (state r) = minor inf /\
  forall j : nat, (result r <= j)%nat -> mem (state r) !! j = mem inf !! j.
Proof.
  intros Hlen. cbn zeta.
  destruct (setup_loop_full dev inf t Hlen) as (ps & Hps & Hle & Hrun).
  rewrite Hrun. cbn [result state fst snd mem minor set_mem].
  split; [exact Hle|]. split; [|split; [reflexivity|]].
  - rewrite length_app, length_zip_with, length_drop. lia.
  - intros j Hj. rewrite lookup_app_r by (rewrite length_zip_with; lia).
    rewrite lookup_drop, length_zip_with. f_equal. lia.
Qed.

(** X6. [macb_uio_setup_iomem] calls [ioremap] once for each resource found,
    in index order, on the page-aligned range of that resource, and calls
    nothing else; entry [k] stores the answer of call [k]. *)
Theorem setup_maps_each_resource_once
    (dev : platform_device) (inf : uio_info) (t : trace) :
  length (mem inf) = MAX_UIO_MAPS ->
  let found := found_resources dev (seq 0%nat MAX_UIO_MAPS) in
  let r := macb_uio_setup_iomem dev inf t in
  exists ps : list ptr,
    length ps = length found /\
    calls r = t ++ zip_with ioremap_of found ps /\
    internal_addr <$> take (length found) (mem (state r)) = ps.
Proof.
  intros Hlen. cbn zeta.
  destruct (setup_loop_full dev inf t Hlen) as (ps & Hps & Hle & Hrun).
  exists ps. unfold macb_uio_setup_iomem, bind, ret. rewrite Hrun.
  cbn [calls state fst snd mem set_mem].
  split; [exact Hps|]. split; [reflexivity|].
  rewrite take_app_length' by (rewrite length_zip_with; lia).
  clear Hrun Hle. revert ps Hps.
  induction (found_resources dev (seq 0%nat MAX_UIO_MAPS)) as [|res l IH];
    intros [|p ps] Hps; try discriminate; [reflexivity|].
  cbn. f_equal. apply IH. cbn in Hps. lia.
Qed.

Lemma live_mappings_app l1 l2 :
  live_mappings (l1 ++ l2) = live_mappings l1 ++ live_mappings l2.
Proof. unfold live_mappings. rewrite fmap_app, filter_app. reflexivity. Qed.

Lemma live_mappings_none l :
  Forall (fun m => internal_addr m = NULL) l -> live_mappings l = [].
Proof.
  induction 1 as [|m l Hm _ IH]; [reflexivity|].
  rewrite live_mappings_cons, Hm. exact IH.
Qed.

Lemma live_mappings_regions found : forall ps,
  length ps = length found ->
  live_mappings (zip_with region_of found ps) = filter (fun p => p <> NULL) ps.
Proof.
  induction found as [|res l IH]; intros [|p ps] Hps; try discriminate;
    [reflexivity|].
  cbn [zip_with]. rewrite live_mappings_cons, filter_cons.
  cbn [region_of internal_addr]. rewrite IH by (cbn in Hps; lia).
  destruct (Z.eqb_spec p NULL), (decide (p <> NULL)); try reflexivity;
    contradiction.
Qed.

(** X7. Setup then teardown, on an array with no entry mapped before: the
    teardown unmaps exactly the pointers that the [ioremap] calls of the
    setup returned and that are not [NULL], in the order of the calls. *)
Theorem teardown_unmaps_what_setup_mapped
    (dev : platform_device) (inf : uio_info) (t : trace) :
  length (mem inf) = MAX_UIO_MAPS ->
  Forall (fun m => internal_addr m = NULL) (mem inf) ->
  let found := found_resources dev (seq 0%nat MAX_UIO_MAPS) in
  let r1 := macb_uio_setup_iomem dev inf t in
  let r2 := macb_uio_release_iomem (state r1) (calls r1) in
  exists ps : list ptr,
    length ps = length found /\
    calls r1 = t ++ zip_with ioremap_of found ps /\
    calls r2 = calls r1 ++ (Iounmap <$> filter (fun p => p <> NULL) ps).
Proof.
  intros Hlen Hnull. cbn zeta.
  destruct (setup_loop_full dev inf t Hlen) as (ps & Hps & Hle & Hrun).
  exists ps. unfold macb_uio_setup_iomem, bind, ret. rewrite Hrun.
  cbn [calls state fst snd]. split; [exact Hps|]. split; [reflexivity|].
  rewrite release_iomem_run. cbn [snd mem set_mem].
  rewrite take_ge by (rewrite length_app, length_zip_with, length_drop; lia).
  rewrite live_mappings_app, live_mappings_regions by exact Hps.
  rewrite (live_mappings_none (drop _ _)) by (apply Forall_drop; exact Hnull).
  rewrite app_nil_r. reflexivity.
Qed.

(** X8. The window recorded for the [k]-th resource found, when its rounded
    size fits in 64 bits.  The window starts at the page boundary at or
    below the resource and is less than a page longer than the resource.
    As start and size are rounded separately, the window reaches the end
    of the resource exactly when the offset of the start within its page
    is at most the slack gained by rounding the size: always for a
    page-aligned start, never for an unaligned start with a size of whole
    pages. *)
Theorem region_window_and_resource
    (dev : platform_device) (inf : uio_info) (t : trace)
    (k : nat) (res : resource) :
  0 <= PAGE_SHIFT < 64 ->
  length (mem inf) = MAX_UIO_MAPS ->
  found_resources dev (seq 0%nat MAX_UIO_MAPS) !! k = Some res ->
  0 <= res_start res < 2 ^ 64 ->
  page_ceil (resource_size res) < 2 ^ 64 ->
  let m := mem_at (state (setup_iomem_loop dev inf t)) k in
  let off := res_start res mod PAGE_SIZE in
  let covers := res_start res + resource_size res <= addr m + size m in
  addr m = res_start res - off /\
  resource_size res <= size m < resource_size res + PAGE_SIZE /\
  (covers <-> off <= size m - resource_size res) /\
  (off = 0 -> covers) /\
  (off <> 0 -> resource_size res mod PAGE_SIZE = 0 -> ~ covers).
Proof.
  intros Hs Hlen Hk Hstart Hfit. cbn zeta.
  destruct (setup_loop_entries dev inf t Hlen) as (_ & _ & Hent).
  destruct (Hent k res Hk) as (p & Hm & _).
  unfold mem_at. rewrite Hm. cbn [from_option id region_of addr size].
  rewrite land_PAGE_MASK, PAGE_ALIGN_ceil by assumption.
  pose proof (PAGE_SIZE_pos Hs) as Hp.
  assert (Hrs : 0 <= resource_size res)
    by (unfold resource_size, u64; apply Z.mod_pos_bound; lia).
  destruct (page_ceil_spec (resource_size res) Hs) as (Hcm & Hcb).
  unfold u64. rewrite (Z.mod_small (page_ceil _)) by lia.
  assert (Hfl : page_floor (res_start res)
                = res_start res - res_start res mod PAGE_SIZE).
  { unfold page_floor. rewrite Z.mod_eq by lia. lia. }
  rewrite Hfl.
  pose proof (Z.mod_pos_bound (res_start res) PAGE_SIZE Hp) as Hoff.
  split; [reflexivity|]. split; [lia|]. split; [lia|]. split; [lia|].
  intros Hne Hwhole.
  assert (page_ceil (resource_size res) = resource_size res); [|lia].
  unfold page_ceil in *.
  apply Z.mod_divide in Hwhole; [|lia]. destruct Hwhole as [q Hq].
  rewrite Hq.
  replace (q * PAGE_SIZE + PAGE_SIZE - 1) with (PAGE_SIZE - 1 + q * PAGE_SIZE)
    by lia.
  rewrite Z.div_add, Z.div_small by lia. lia.
Qed.

(** ** More on removal *)

Lemma net_opens_bound cs : Z.abs (net_opens cs) <= Z.of_nat (length cs).
Proof.
  induction cs as [|[] cs IH]; cbn [net_opens length]; lia.
Qed.

(** [macb_uio_remove] on a device with a record attached, in full. *)
Lemma remove_run dev u t :
  driver_data dev = Some u ->
  macb_uio_remove dev t =
  let v := wrap_int (refcnt u - 1) in
  (0, set_driver_data None dev,
   (if v =? 0 then t ++ [KthreadStop (poll_task u)] else t)
   ++ [SysfsRemoveGroup; UioUnregisterDevice]
   ++ (Iounmap <$> live_mappings (take MAX_UIO_MAPS (mem (info u))))
   ++ [Kfree (Some (set_refcnt v u))]).
Proof.
  intros Hd. cbn zeta.
  destruct dev as [resources attached]. cbn [driver_data] in Hd. subst attached.
  unfold macb_uio_remove, bind, platform_get_drvdata, on_udev, on_info.
  cbn [driver_data set_driver_data].
  rewrite release_unfold. cbn zeta.
  unfold sysfs_remove_group, uio_unregister_device, call.
  cbn [driver_data set_driver_data info set_refcnt].
  rewrite release_iomem_run.
  unfold platform_set_drvdata, modify, kfree, call, ret.
  cbn [driver_data set_driver_data mem_resource set_info info mem refcnt poll_task].
  rewrite <- !app_assoc. reflexivity.
Qed.

(** X9. After a removal no record is attached, so a second removal returns
    [-EINVAL], calls nothing and changes nothing: nothing is unmapped or
    freed twice. *)
Theorem second_removal_does_nothing (dev : platform_device) (t : trace) :
  let r1 := macb_uio_remove dev t in
  let r2 := macb_uio_remove (state r1) (calls r1) in
  driver_data (state r1) = None /\
  r2 = (- EINVAL, state r1, calls r1).
Proof.
  cbn zeta.
  assert (Hnone : driver_data (state (macb_uio_remove dev t)) = None).
  { destruct (driver_data dev) as [u|] eqn:Hd.
    - rewrite (remove_run dev u t Hd). reflexivity.
    - unfold macb_uio_remove, bind, platform_get_drvdata. rewrite Hd.
      cbn. exact Hd. }
  split; [exact Hnone|].
  unfold macb_uio_remove at 1. unfold bind, platform_get_drvdata.
  rewrite Hnone. reflexivity.
Qed.

Lemma workers_running_unmaps l : workers_running (Iounmap <$> l) = 0.
Proof. induction l as [|p l IH]; cbn; [reflexivity|exact IH]. Qed.

(** X10. Removal after any session from the fresh record (thread creation
    succeeding, the counter not wrapping): the single close that removal
    makes stops the worker only when the count is exactly 1.  With two or
    more consumers still open, the record is freed while the worker is
    left running. *)
Theorem removal_leaves_worker_with_two_consumers
    (cs : list session_call) (i : uio_info) (resources : nat -> option resource) :
  (forall tr, valid_task (kthread_create_ret tr)) ->
  Z.of_nat (length cs) <= INT_MAX ->
  let s := do_calls cs (fresh_udev i) [] in
  let dev := {| mem_resource := resources; driver_data := Some (state s) |} in
  let r := macb_uio_remove dev (calls s) in
  result r = 0 /\
  driver_data (state r) = None /\
  workers_running (calls r) = (if 2 <=? refcnt (state s) then 1 else 0).
Proof.
  intros Hk Hb. cbn zeta.
  destruct (session_inv_calls cs (fresh_udev i) [] Hk) as (Hrun & _ & _).
  { cbn. lia. }
  { unfold session_inv. cbn. split; [reflexivity|]. split; [reflexivity|lia]. }
  destruct (do_calls_count cs (fresh_udev i) []) as (_ & Hc & _).
  { cbn. lia. }
  cbn [refcnt fresh_udev] in Hc. pose proof (net_opens_bound cs) as Hn.
  set (s := do_calls cs (fresh_udev i) []) in *.
  rewrite (remove_run {| mem_resource := resources; driver_data := Some (state s) |}
             (state s) (calls s) eq_refl). cbn zeta.
  cbn [result state calls fst snd driver_data set_driver_data].
  split; [reflexivity|]. split; [reflexivity|].
  rewrite wrap_int_small by (unfold INT_MIN, INT_MAX in *; lia).
  rewrite !workers_running_app, workers_running_unmaps.
  destruct (Z.eqb_spec (refcnt (state s) - 1) 0) as [E|E].
  - rewrite workers_running_app, Hrun.
    replace (0 <? refcnt (state s)) with true by (symmetry; apply Z.ltb_lt; lia).
    replace (2 <=? refcnt (state s)) with false by (symmetry; apply Z.leb_gt; lia).
    reflexivity.
  - rewrite Hrun. cbn [workers_running worker_delta].
    destruct (Z.ltb_spec 0 (refcnt (state s))), (Z.leb_spec 2 (refcnt (state s)));
      lia.
Qed.

(** ** Probe *)

Lemma on_local_run {Obj A} (m : M Obj A) (obj obj1 : Obj) (a : A)
    (ps : probe_state) (t new : trace) :
  m obj t = (a, obj1, t ++ new) ->
  on_local m obj ps t = ((a, obj1), logged (Driver <$> new) ps, t ++ new).
Proof.
  intros H. unfold on_local. rewrite H, drop_app_length. reflexivity.
Qed.

(** [macb_uio_setup_iomem] on the zeroed record, in full. *)
Lemma setup_iomem_zeroed dev t :
  let found := found_resources dev (seq 0%nat MAX_UIO_MAPS) in
  exists qs : list ptr,
    length qs = length found /\
    macb_uio_setup_iomem dev (info zeroed_udev) t =
    ((if found is [] then - ENOENT else 0), probed_info found qs,
     t ++ zip_with ioremap_of found qs).
Proof.
  cbn zeta.
  destruct (setup_loop_full dev (info zeroed_udev) t) as (qs & Hqs & Hle & Hrun).
  { cbn. apply length_replicate. }
  exists qs. split; [exact Hqs|].
  unfold macb_uio_setup_iomem, bind, ret. rewrite Hrun.
  cbn [info zeroed_udev mem set_mem minor]. rewrite drop_replicate.
  unfold probed_info. f_equal. f_equal.
  destruct (found_resources dev (seq 0%nat MAX_UIO_MAPS)); reflexivity.
Qed.

Lemma live_mappings_probed found qs :
  length qs = length found ->
  (length found <= MAX_UIO_MAPS)%nat ->
  live_mappings (take MAX_UIO_MAPS (mem (probed_info found qs)))
  = filter (fun p => p <> NULL) qs.
Proof.
  intros Hqs Hle. cbn [probed_info mem].
  rewrite take_ge
    by (rewrite length_app, length_zip_with, length_replicate; lia).
  rewrite live_mappings_app, live_mappings_regions by exact Hqs.
  rewrite live_mappings_none, app_nil_r; [reflexivity|].
  apply Forall_replicate. reflexivity.
Qed.

(** The two exits through the labels, on a record built by probe. *)
Lemma fail_release_iomem_run found qs c err ps t :
  length qs = length found ->
  (length found <= MAX_UIO_MAPS)%nat ->
  let u := {| info := probed_info found qs; refcnt := c; poll_task := NULL |} in
  let unmaps := Iounmap <$> filter (fun p => p <> NULL) qs in
  fail_release_iomem u err ps t =
  (err, logged ((Driver <$> unmaps) ++ [Driver (Kfree (Some u))]) ps,
   t ++ unmaps ++ [Kfree (Some u)]).
Proof.
  intros Hqs Hle. cbn zeta. unfold fail_release_iomem, bind.
  erewrite on_local_run by apply release_iomem_run.
  cbn [info snd]. rewrite live_mappings_probed by assumption.
  erewrite on_local_run by reflexivity.
  unfold ret, logged. cbn [probed_dev kernel_log set_info info refcnt poll_task].
  rewrite <- !app_assoc. reflexivity.
Qed.

(** [macb_uio_probe] in full, by the step that fails first. *)
Lemma probe_run ps t :
  let found := found_resources (probed_dev ps) (seq 0%nat MAX_UIO_MAPS) in
  exists qs : list ptr,
    length qs = length found /\
    let maps := zip_with ioremap_of found qs in
    let unmaps := Iounmap <$> filter (fun p => p <> NULL) qs in
    let u := fresh_udev (probed_info found qs) in
    macb_uio_probe ps t =
    if negb kzalloc_ok then (- ENOMEM, logged [Kzalloc false] ps, t)
    else if found is [] then
      (- ENOENT,
       logged ([Kzalloc true;
                DevErr "There is no resource for register uio device."]
               ++ (Driver <$> unmaps) ++ [Driver (Kfree (Some u))]) ps,
       t ++ maps ++ unmaps ++ [Kfree (Some u)])
    else if negb (sysfs_create_group_ret =? 0) then
      (sysfs_create_group_ret,
       logged ([Kzalloc true] ++ (Driver <$> maps)
               ++ [SysfsCreateGroup sysfs_create_group_ret]
               ++ (Driver <$> unmaps) ++ [Driver (Kfree (Some u))]) ps,
       t ++ maps ++ unmaps ++ [Kfree (Some u)])
    else if negb (uio_register_device_ret =? 0) then
      (uio_register_device_ret,
       logged ([Kzalloc true] ++ (Driver <$> maps)
               ++ [SysfsCreateGroup sysfs_create_group_ret;
                   UioRegisterDevice DRIVER_NAME DRIVER_VERSION UIO_IRQ_CUSTOM
                     uio_register_device_ret;
                   DevErr "Failed to register uio device.";
                   Driver SysfsRemoveGroup]
               ++ (Driver <$> unmaps) ++ [Driver (Kfree (Some u))]) ps,
       t ++ maps ++ [SysfsRemoveGroup] ++ unmaps ++ [Kfree (Some u)])
    else
      (0,
       {| probed_dev :=
            set_driver_data
              (Some (fresh_udev (set_minor uio_minor (probed_info found qs))))
              (probed_dev ps);
          kernel_log :=
            kernel_log ps ++ [Kzalloc true] ++ (Driver <$> maps)
            ++ [SysfsCreateGroup sysfs_create_group_ret;
                UioRegisterDevice DRIVER_NAME DRIVER_VERSION UIO_IRQ_CUSTOM
                  uio_register_device_ret]
            ++ dma_self_test_log |},
       t ++ maps).
Proof.
  cbn zeta.
  destruct (setup_iomem_zeroed (probed_dev ps) t) as (qs & Hqs & Hsetup).
  assert (Hle : (length (found_resources (probed_dev ps) (seq 0%nat MAX_UIO_MAPS))
                 <= MAX_UIO_MAPS)%nat).
  { etransitivity; [apply found_resources_length|]. rewrite length_seq. lia. }
  exists qs. split; [exact Hqs|].
  unfold macb_uio_probe. unfold bind at 1. unfold log_kernel at 1, modify at 1.
  destruct kzalloc_ok; cbn [negb]; [|reflexivity].
  unfold bind at 1. unfold get at 1. unfold bind at 1.
  cbn [probed_dev].
  erewrite on_local_run by exact Hsetup.
  cbn [fst snd]. change (set_info (probed_info ?f ?q) zeroed_udev)
    with (fresh_udev (probed_info f q)).
  set (found := found_resources (probed_dev ps) (seq 0%nat MAX_UIO_MAPS)) in *.
  set (u := fresh_udev (probed_info found qs)).
  assert (Hfail : forall err ps1 t1,
    fail_release_iomem u err ps1 t1 =
    (err, logged ((Driver <$> (Iounmap <$> filter (fun p => p <> NULL) qs))
                  ++ [Driver (Kfree (Some u))]) ps1,
     t1 ++ (Iounmap <$> filter (fun p => p <> NULL) qs) ++ [Kfree (Some u)])).
  { intros. apply (fail_release_iomem_run found qs 0); assumption. }
  destruct found as [|res0 found'] eqn:Hfound.
  - change (negb (- ENOENT =? 0)) with true. cbn iota.
    unfold bind at 1. unfold log_kernel at 1, modify at 1.
    rewrite Hfail. unfold logged. cbn [probed_dev kernel_log].
    destruct qs; [|discriminate]. cbn [zip_with fmap list_fmap app].
    rewrite <- !app_assoc. reflexivity.
  - change (negb (0 =? 0)) with false. cbn iota.
    change (set_refcnt 0 u) with u.
    unfold bind at 1. unfold log_kernel at 1, modify at 1.
    destruct (sysfs_create_group_ret =? 0); cbn [negb].
    + unfold bind at 1. unfold log_kernel at 1, modify at 1.
      destruct (uio_register_device_ret =? 0); cbn [negb].
      * unfold bind at 1. unfold modify at 1. unfold bind at 1.
        assert (Hdma : forall ps1 t1,
                  dma_self_test ps1 t1 = (tt, logged dma_self_test_log ps1, t1)).
        { intros. unfold dma_self_test, dma_self_test_log, bind, log_kernel,
            modify, ret, logged.
          destruct (dma_alloc_ret =? NULL); cbn [negb probed_dev kernel_log];
            rewrite <- ?app_assoc; reflexivity. }
        rewrite Hdma. unfold ret, logged. cbn [probed_dev kernel_log].
        rewrite <- !app_assoc. reflexivity.
      * unfold bind at 1. unfold log_kernel at 1, modify at 1.
        unfold fail_remove_group, bind at 1.
        erewrite on_local_run by reflexivity.
        rewrite Hfail. unfold logged. cbn [probed_dev kernel_log].
        rewrite <- !app_assoc. reflexivity.
    + rewrite Hfail. unfold logged. cbn [probed_dev kernel_log].
      rewrite <- !app_assoc. reflexivity.
Qed.

(** X11. [macb_uio_probe] returns the error of the first step that fails:
    [-ENOMEM] without memory for the record, [-ENOENT] without a memory
    resource, else the error of [sysfs_create_group], else that of
    [uio_register_device]; a failing [dma_alloc_coherent] is no error.
    When the result is not 0 the platform device is as it was (no record
    is attached); when it is 0 a record is attached. *)
Theorem probe_returns_first_failure (ps : probe_state) (t : trace) :
  let found := found_resources (probed_dev ps) (seq 0%nat MAX_UIO_MAPS) in
  let r := macb_uio_probe ps t in
  result r =
    (if negb kzalloc_ok then - ENOMEM
     else if found is [] then - ENOENT
     else if negb (sysfs_create_group_ret =? 0) then sysfs_create_group_ret
     else uio_register_device_ret) /\
  (result r <> 0 -> probed_dev (state r) = probed_dev ps) /\
  (result r = 0 -> is_Some (driver_data (probed_dev (state r)))).
Proof.
  cbn zeta. destruct (probe_run ps t) as (qs & _ & Hrun). cbn zeta in Hrun.
  rewrite Hrun. clear Hrun.
  destruct kzalloc_ok; cbn [negb].
  2:{ split; [reflexivity|]. split; [reflexivity|discriminate]. }
  destruct (found_resources (probed_dev ps) (seq 0%nat MAX_UIO_MAPS)).
  { split; [reflexivity|]. split; [reflexivity|discriminate]. }
  destruct (Z.eqb_spec sysfs_create_group_ret 0) as [Es|Es]; cbn [negb].
  2:{ split; [reflexivity|]. split; [reflexivity|]. intros H. contradiction. }
  destruct (Z.eqb_spec uio_register_device_ret 0) as [Er|Er]; cbn [negb].
  2:{ split; [reflexivity|]. split; [reflexivity|]. intros H. contradiction. }
  cbn [result state fst snd probed_dev driver_data set_driver_data].
  split; [symmetry; exact Er|]. split; [intros H; contradiction|eauto].
Qed.

(** X12. A probe that got its record and then fails undoes what it did, in
    reverse order: the sysfs group is removed when it had been created,
    every pointer that an [ioremap] call returned and that is not [NULL]
    is unmapped, and the record is freed.  Nothing else of the driver's
    calls is made; in particular nothing is unregistered. *)
Theorem probe_failure_unwinds (ps : probe_state) (t : trace) :
  kzalloc_ok = true ->
  let found := found_resources (probed_dev ps) (seq 0%nat MAX_UIO_MAPS) in
  let r := macb_uio_probe ps t in
  result r <> 0 ->
  let group_created := negb (if found is [] then true else false)
                       && (sysfs_create_group_ret =? 0) in
  exists qs : list ptr,
    length qs = length found /\
    calls r =
      t ++ zip_with ioremap_of found qs
        ++ (if group_created then [SysfsRemoveGroup] else [])
        ++ (Iounmap <$> filter (fun p => p <> NULL) qs)
        ++ [Kfree (Some (fresh_udev (probed_info found qs)))].
Proof.
  intros Hk. cbn zeta. destruct (probe_run ps t) as (qs & Hqs & Hrun).
  cbn zeta in Hrun. rewrite Hrun, Hk. clear Hrun. cbn [negb].
  intros Hres. exists qs. split; [exact Hqs|]. revert Hres.
  destruct (found_resources (probed_dev ps) (seq 0%nat MAX_UIO_MAPS)).
  { intros _. reflexivity. }
  destruct (sysfs_create_group_ret =? 0); cbn [negb andb]; [|intros _; reflexivity].
  destruct (uio_register_device_ret =? 0); cbn [negb]; [|intros _; reflexivity].
  cbn [result fst]. intros H. contradiction.
Qed.

(** X13. A probe that succeeds maps each resource found once and unmaps or
    frees nothing.  The record it attaches is a fresh one (count 0, no
    task) whose first entries are the regions, the rest zeroed, with the
    minor number given by the registration.  The device is registered as
    "macb_uio" version "5.0" with a custom interrupt, after the sysfs
    group is created; the scratch dma buffer, when the kernel gives one, is
    cleared and freed again. *)
Theorem probe_success_attaches_fresh_record (ps : probe_state) (t : trace) :
  let found := found_resources (probed_dev ps) (seq 0%nat MAX_UIO_MAPS) in
  let r := macb_uio_probe ps t in
  result r = 0 ->
  exists qs : list ptr,
    length qs = length found /\
    found <> [] /\
    calls r = t ++ zip_with ioremap_of found qs /\
    mem_resource (probed_dev (state r)) = mem_resource (probed_dev ps) /\
    driver_data (probed_dev (state r)) =
      Some {| info :=
                {| mem := zip_with region_of found qs
                          ++ replicate (MAX_UIO_MAPS - length found) zero_mem;
                   minor := uio_minor |};
              refcnt := 0; poll_task := NULL |} /\
    kernel_log (state r) =
      kernel_log ps ++ [Kzalloc true]
      ++ (Driver <$> zip_with ioremap_of found qs)
      ++ [SysfsCreateGroup 0;
          UioRegisterDevice "macb_uio" "5.0" (-1) 0;
          DmaAllocCoherent 1024 dma_alloc_ret dma_handle]
      ++ (if dma_alloc_ret =? NULL
          then [DevInfo "dma mapping failed"]
          else [Memset dma_alloc_ret 0 1024;
                DevInfo "mapping 1K dma=%#llx host=%p";
                DmaFreeCoherent 1024 dma_alloc_ret dma_handle;
                DevInfo "unmapping 1K dma=%#llx host=%p"]).
Proof.
  cbn zeta. destruct (probe_run ps t) as (qs & Hqs & Hrun).
  cbn zeta in Hrun. rewrite Hrun. clear Hrun.
  destruct kzalloc_ok; cbn [negb]; [|discriminate].
  destruct (found_resources (probed_dev ps) (seq 0%nat MAX_UIO_MAPS)) eqn:Hf;
    [discriminate|].
  destruct (Z.eqb_spec sysfs_create_group_ret 0) as [Es|Es]; cbn [negb];
    [|intros H; contradiction].
  destruct (Z.eqb_spec uio_register_device_ret 0) as [Er|Er]; cbn [negb];
    [|intros H; contradiction].
  intros _. exists qs. split; [exact Hqs|]. split; [discriminate|].
  cbn [calls state snd fst probed_dev kernel_log set_driver_data
       mem_resource driver_data].
  split; [reflexivity|]. split; [reflexivity|]. split; [reflexivity|].
  rewrite Es, Er. unfold dma_self_test_log.
  destruct (dma_alloc_ret =? NULL); rewrite <- ?app_assoc; reflexivity.
Qed.

(** X14. Probe, then removal.  After a successful probe a removal returns 0
    and detaches the record; over the two, every pointer that [ioremap]
    returned and that is not [NULL] is unmapped once and the record is
    freed once.  The close that removal makes finds the count at 0, so it
    stops no thread and the freed record has count -1. *)
Theorem probe_then_remove (ps : probe_state) (t : trace) :
  let found := found_resources (probed_dev ps) (seq 0%nat MAX_UIO_MAPS) in
  let r1 := macb_uio_probe ps t in
  result r1 = 0 ->
  let r2 := macb_uio_remove (probed_dev (state r1)) (calls r1) in
  result r2 = 0 /\
  state r2 = set_driver_data None (probed_dev ps) /\
  exists (qs : list ptr) (u : rte_uio_platform_dev),
    length qs = length found /\
    refcnt u = -1 /\
    calls r2 =
      t ++ zip_with ioremap_of found qs
        ++ [SysfsRemoveGroup; UioUnregisterDevice]
        ++ (Iounmap <$> filter (fun p => p <> NULL) qs)
        ++ [Kfree (Some u)].
Proof.
  cbn zeta. destruct (probe_run ps t) as (qs & Hqs & Hrun).
  cbn zeta in Hrun. rewrite Hrun. clear Hrun.
  assert (Hle : (length (found_resources (probed_dev ps) (seq 0%nat MAX_UIO_MAPS))
                 <= MAX_UIO_MAPS)%nat).
  { etransitivity; [apply found_resources_length|]. rewrite length_seq. lia. }
  destruct kzalloc_ok; cbn [negb]; [|discriminate].
  destruct (found_resources (probed_dev ps) (seq 0%nat MAX_UIO_MAPS)) eqn:Hf;
    [discriminate|].
  destruct (Z.eqb_spec sysfs_create_group_ret 0) as [Es|Es]; cbn [negb];
    [|intros H; contradiction].
  destruct (Z.eqb_spec uio_register_device_ret 0) as [Er|Er]; cbn [negb];
    [|intros H; contradiction].
  intros _. cbn [calls state snd fst probed_dev].
  erewrite remove_run by reflexivity. cbn zeta.
  cbn [result state calls fst snd refcnt fresh_udev poll_task info].
  change (wrap_int (0 - 1)) with (-1). change (-1 =? 0) with false. cbn iota.
  split; [reflexivity|]. split; [reflexivity|].
  eexists qs, _. split; [exact Hqs|]. split; [|].
  2:{ change (mem (set_minor uio_minor ?i)) with (mem i).
      rewrite live_mappings_probed by assumption.
      rewrite <- !app_assoc. reflexivity. }
  reflexivity.
Qed.

(** ** The polling thread *)

Lemma poll_from_running should_stop fuel : forall k log,
  (forall j : nat, (j < fuel)%nat -> should_stop (k + j)%nat = false) ->
  macb_uio_poll_from should_stop fuel k log = None.
Proof.
  induction fuel as [|fuel IH]; intros k log Hrun; [reflexivity|].
  cbn [macb_uio_poll_from].
  rewrite <- (Nat.add_0_r k) at 1. rewrite Hrun by lia.
  apply IH. intros j Hj. replace (S k + j)%nat with (k + S j)%nat by lia.
  apply Hrun. lia.
Qed.

Lemma poll_from_stops should_stop n : forall fuel k log,
  (forall j : nat, (j < n)%nat -> should_stop (k + j)%nat = false) ->
  should_stop (k + n)%nat = true ->
  (n < fuel)%nat ->
  macb_uio_poll_from should_stop fuel k log =
  Some (0, log ++ concat (replicate n [UioEventNotify; Msleep UIO_POLL_INTERVAL])).
Proof.
  induction n as [|n IH]; intros fuel k log Hrun Hstop Hfuel;
    (destruct fuel as [|fuel]; [lia|]); cbn [macb_uio_poll_from].
  - rewrite Nat.add_0_r in Hstop. rewrite Hstop. cbn. rewrite app_nil_r.
    reflexivity.
  - rewrite <- (Nat.add_0_r k) at 1. rewrite Hrun by lia.
    rewrite (IH fuel (S k)); [| | |lia].
    + cbn [replicate concat]. rewrite <- !app_assoc. reflexivity.
    + intros j Hj. replace (S k + j)%nat with (k + S j)%nat by lia.
      apply Hrun. lia.
    + replace (S k + n)%nat with (k + S n)%nat by lia. exact Hstop.
Qed.

Lemma time_slept_rounds n :
  time_slept (concat (replicate n [UioEventNotify; Msleep UIO_POLL_INTERVAL]))
  = UIO_POLL_INTERVAL * Z.of_nat n.
Proof.
  induction n as [|n IH]; [reflexivity|].
  cbn [replicate concat app time_slept]. rewrite IH. lia.
Qed.

(** X15. The polling thread, when [kthread_should_stop] first answers true at
    its test number [n] (from 0): with more than [n] tests allowed the
    thread returns 0 after exactly [n] rounds of one notification and one
    sleep of 100 ms, so after sleeping [100 * n] ms, with no notification
    after the stop is seen and none at all when [n] is 0; with [n] tests
    or fewer it is still running. *)
Theorem poll_notifies_until_stop (should_stop : nat -> bool) (n fuel : nat) :
  (forall j : nat, (j < n)%nat -> should_stop j = false) ->
  should_stop n = true ->
  let rounds := concat (replicate n [UioEventNotify; Msleep UIO_POLL_INTERVAL]) in
  macb_uio_poll should_stop fuel =
    (if (n <? fuel)%nat then Some (0, rounds) else None) /\
  time_slept rounds = 100 * Z.of_nat n.
Proof.
  intros Hrun Hstop. cbn zeta. split; [|apply time_slept_rounds].
  unfold macb_uio_poll. destruct (Nat.ltb_spec n fuel) as [Hlt|Hge].
  - rewrite (poll_from_stops should_stop n); auto.
  - apply poll_from_running. intros j Hj. apply Hrun. cbn. lia.
Qed.

(** ** The [physical_addr] attribute *)

Lemma first_resource_start_found dev idx : forall physical_addr,
  first_resource_start dev idx physical_addr =
  match found_resources dev idx with
  | [] => physical_addr
  | res :: _ => res_start res
  end.
Proof.
  unfold found_resources.
  induction idx as [|i idx IH]; intros physical_addr; [reflexivity|].
  cbn [first_resource_start omap list_omap].
  destruct (platform_get_resource dev i); [reflexivity|apply IH].
Qed.

Lemma substring_all (s : string) : forall n : nat,
  (String.length s <= n)%nat -> substring 0 n s = s.
Proof.
  induction s as [|c s IH]; intros [|n] H; cbn in *; try reflexivity; try lia.
  f_equal. apply IH. lia.
Qed.

(** X16. The [physical_addr] attribute and region 0.  The attribute shows, in
    hexadecimal, the start of the first memory resource found, the one
    that [macb_uio_setup_iomem] maps as region 0, and "0x0" when there is
    none.  When the text fits the 15 characters of the buffer, reading it
    back and truncating to the page boundary gives the address recorded
    for region 0. *)
Theorem physical_addr_is_start_of_region0
    (dev : platform_device) (inf : uio_info) (t : trace) :
  0 <= PAGE_SHIFT < 64 ->
  length (mem inf) = MAX_UIO_MAPS ->
  (forall i res, platform_get_resource dev i = Some res ->
                 0 <= res_start res < 2 ^ 64) ->
  let found := found_resources dev (seq 0%nat MAX_UIO_MAPS) in
  let shown := physical_addr_show dev in
  (found = [] -> shown = ("0x0"%string, 3)) /\
  (forall res rest, found = res :: rest ->
     shown = snprintf 16 (HexString.of_Z (res_start res)) /\
     (snd shown < 16 ->
        HexString.to_Z (fst shown) = res_start res /\
        page_floor (HexString.to_Z (fst shown))
        = addr (mem_at (state (setup_iomem_loop dev inf t)) 0))).
Proof.
  intros Hs Hlen Hres. cbn zeta. unfold physical_addr_show.
  rewrite first_resource_start_found. split.
  - intros ->. reflexivity.
  - intros res rest Hf. rewrite Hf. split; [reflexivity|].
    unfold snprintf. cbn [fst snd]. intros Hfit.
    rewrite substring_all by lia. rewrite HexString.to_Z_of_Z.
    split; [reflexivity|].
    destruct (setup_loop_entries dev inf t Hlen) as (_ & _ & Hent).
    destruct (Hent 0%nat res) as (p & Hm & _); [rewrite Hf; reflexivity|].
    unfold mem_at. rewrite Hm. cbn [from_option id region_of addr].
    symmetry. apply land_PAGE_MASK; [exact Hs|].
    assert (Hin : res ∈ found_resources dev (seq 0%nat MAX_UIO_MAPS))
      by (rewrite Hf; left).
    apply list_elem_of_omap in Hin. destruct Hin as (i & _ & Hi). eauto.
Qed.

(** ** The whole life of a device *)

Lemma on_udev_run {A} (m : M rte_uio_platform_dev A) d u t :
  driver_data d = Some u ->
  on_udev m d t =
  (Some (result (m u t)), set_driver_data (Some (state (m u t))) d, calls (m u t)).
Proof.
  intros Hd. unfold on_udev. rewrite Hd.
  destruct (m u t) as [[a u1] t1]. reflexivity.
Qed.

Lemma maps_of_setup found : forall qs,
  length qs = length found ->
  omap mapped_pointer (zip_with ioremap_of found qs) = qs /\
  omap unmapped_pointer (zip_with ioremap_of found qs) = [] /\
  omap freed_record (zip_with ioremap_of found qs) = [] /\
  workers_running (zip_with ioremap_of found qs) = 0 /\
  last_created (zip_with ioremap_of found qs) NULL = NULL.
Proof.
  induction found as [|res l IH]; intros [|q qs] Hqs; try discriminate;
    [cbn; auto|].
  destruct (IH qs) as (H1 & H2 & H3 & H4 & H5); [cbn in Hqs; lia|].
  cbn [zip_with]. unfold ioremap_of at 1 3 5 7 9.
  cbn [omap list_omap mapped_pointer unmapped_pointer freed_record
       workers_running worker_delta last_created created_task from_option].
  rewrite H1, H2, H3, H4, H5. auto.
Qed.

Lemma thread_calls_map_nothing new :
  forallb is_thread_call new = true ->
  omap mapped_pointer new = [] /\
  omap unmapped_pointer new = [] /\
  omap freed_record new = [].
Proof.
  induction new as [|e new IH]; intros H; [cbn; auto|].
  cbn [forallb] in H. apply andb_prop in H as (He & Hn).
  destruct (IH Hn) as (H1 & H2 & H3).
  destruct e; try discriminate He;
    cbn [omap list_omap mapped_pointer unmapped_pointer freed_record];
    rewrite ?H1, ?H2, ?H3; auto.
Qed.

Lemma unmaps_of_teardown l :
  omap mapped_pointer (Iounmap <$> l) = [] /\
  omap unmapped_pointer (Iounmap <$> l) = l /\
  omap freed_record (Iounmap <$> l) = [].
Proof.
  induction l as [|p l (H1 & H2 & H3)]; [cbn; auto|].
  cbn [fmap list_fmap omap list_omap mapped_pointer unmapped_pointer freed_record].
  fold (fmap Iounmap l). rewrite H1, H2, H3. auto.
Qed.

Lemma probe_success_run ps t :
  result (macb_uio_probe ps t) = 0 ->
  let found := found_resources (probed_dev ps) (seq 0%nat MAX_UIO_MAPS) in
  exists qs : list ptr,
    length qs = length found /\
    calls (macb_uio_probe ps t) = t ++ zip_with ioremap_of found qs /\
    probed_dev (state (macb_uio_probe ps t)) =
      set_driver_data
        (Some (fresh_udev (set_minor uio_minor (probed_info found qs))))
        (probed_dev ps).
Proof.
  cbn zeta. destruct (probe_run ps t) as (qs & Hqs & Hrun).
  cbn zeta in Hrun. rewrite Hrun. clear Hrun.
  destruct kzalloc_ok; cbn [negb]; [|discriminate].
  destruct (found_resources (probed_dev ps) (seq 0%nat MAX_UIO_MAPS));
    [discriminate|].
  destruct (Z.eqb_spec sysfs_create_group_ret 0) as [Es|Es]; cbn [negb];
    [|intros H; contradiction].
  destruct (Z.eqb_spec uio_register_device_ret 0) as [Er|Er]; cbn [negb];
    [|intros H; contradiction].
  intros _. exists qs. split; [exact Hqs|]. split; reflexivity.
Qed.

(** X17. Probe, any session, removal, from an empty log, with thread creation
    succeeding and the counter not wrapping.  After a successful probe and
    any opens and closes, a removal returns 0 and detaches the record;
    over the whole life every pointer that [ioremap] returned and that is
    not [NULL] is unmapped exactly once, in the order of mapping, and one
    record is freed.  The worker is left running exactly when the opens of
    the session outnumber its closes by two or more. *)
Theorem device_life_is_balanced
    (dev : platform_device) (cs : list session_call) :
  (forall tr, valid_task (kthread_create_ret tr)) ->
  Z.of_nat (length cs) <= INT_MAX ->
  let r1 := macb_uio_probe {| probed_dev := dev; kernel_log := [] |} [] in
  result r1 = 0 ->
  let r2 := on_udev (do_calls cs) (probed_dev (state r1)) (calls r1) in
  let r3 := macb_uio_remove (state r2) (calls r2) in
  result r3 = 0 /\
  state r3 = set_driver_data None dev /\
  omap unmapped_pointer (calls r3)
    = filter (fun p => p <> NULL) (omap mapped_pointer (calls r3)) /\
  length (omap freed_record (calls r3)) = 1%nat /\
  workers_running (calls r3) = (if 2 <=? net_opens cs then 1 else 0).
Proof.
  intros Hk Hb. cbn zeta. intros Hok.
  destruct (probe_success_run _ _ Hok) as (qs & Hqs & Hcalls & Hdev).
  cbn [probed_dev] in *. rewrite Hcalls, Hdev. clear Hcalls Hdev Hok.
  cbn [app].
  assert (Hle : (length (found_resources dev (seq 0%nat MAX_UIO_MAPS))
                 <= MAX_UIO_MAPS)%nat).
  { etransitivity; [apply found_resources_length|]. rewrite length_seq. lia. }
  set (found := found_resources dev (seq 0%nat MAX_UIO_MAPS)) in *.
  set (maps := zip_with ioremap_of found qs).
  set (u0 := fresh_udev (set_minor uio_minor (probed_info found qs))).
  destruct (maps_of_setup found qs Hqs) as (Hm1 & Hm2 & Hm3 & Hm4 & Hm5).
  fold maps in Hm1, Hm2, Hm3, Hm4, Hm5.
  rewrite (on_udev_run (do_calls cs) (set_driver_data (Some u0) dev) u0 maps eq_refl).
  cbn [state calls fst snd].
  destruct (do_calls_footprint cs u0 maps) as (Hinfo & new & Hnew & Hthr).
  destruct (do_calls_count cs u0 maps) as (_ & Hcnt & _); [cbn; lia|].
  cbn [refcnt u0 fresh_udev] in Hcnt. rewrite Z.add_0_l in Hcnt.
  destruct (session_inv_calls cs u0 maps Hk) as (Hrun & _ & _); [cbn; lia| |].
  { unfold session_inv. cbn [refcnt poll_task u0 fresh_udev].
    rewrite Hm4, Hm5. split; [reflexivity|]. split; [reflexivity|lia]. }
  pose proof (net_opens_bound cs) as Hn.
  set (s := do_calls cs u0 maps) in *.
  erewrite remove_run by reflexivity. cbn zeta.
  cbn [result state calls fst snd set_driver_data mem_resource driver_data].
  rewrite Hinfo. cbn [info u0 fresh_udev].
  change (mem (set_minor uio_minor ?i)) with (mem i).
  rewrite live_mappings_probed by assumption.
  rewrite wrap_int_small by (unfold INT_MIN, INT_MAX in *; lia).
  destruct (thread_calls_map_nothing new Hthr) as (Hn1 & Hn2 & Hn3).
  destruct (unmaps_of_teardown (filter (fun p => p <> NULL) qs))
    as (Hu1 & Hu2 & Hu3).
  split; [reflexivity|]. split; [destruct dev; reflexivity|].
  assert (Hstop : forall p,
            omap mapped_pointer [KthreadStop p] = [] /\
            omap unmapped_pointer [KthreadStop p] = [] /\
            omap freed_record [KthreadStop p] = []) by (intros; cbn; auto).
  split; [|split].
  - destruct (refcnt (state s) - 1 =? 0);
      rewrite !omap_app, ?Hnew, ?omap_app, Hm1, Hm2, Hn1, Hn2, Hu1, Hu2;
      cbn [omap list_omap mapped_pointer unmapped_pointer app];
      rewrite ?app_nil_r; reflexivity.
  - destruct (refcnt (state s) - 1 =? 0);
      rewrite !omap_app, ?Hnew, ?omap_app, Hm3, Hn3, Hu3; reflexivity.
  - rewrite !workers_running_app, workers_running_unmaps.
    destruct (Z.eqb_spec (refcnt (state s) - 1) 0) as [E|E].
    + rewrite workers_running_app, Hrun.
      replace (0 <? refcnt (state s)) with true by (symmetry; apply Z.ltb_lt; lia).
      replace (2 <=? net_opens cs) with false by (symmetry; apply Z.leb_gt; lia).
      reflexivity.
    + rewrite Hrun. cbn [workers_running worker_delta].
      destruct (Z.ltb_spec 0 (refcnt (state s))), (Z.leb_spec 2 (net_opens cs));
        lia.
Qed.

(** ** More on the count *)

Lemma wrap_int_idem_l a b : wrap_int (wrap_int a + b) = wrap_int (a + b).
Proof using.
  unfold wrap_int.
  replace ((a + 2 ^ 31) mod 2 ^ 32 - 2 ^ 31 + b + 2 ^ 31)
    with ((a + 2 ^ 31) mod 2 ^ 32 + b) by lia.
  rewrite Zplus_mod_idemp_l. f_equal. f_equal. lia.
Qed.

(** X18. Opens and closes never fail, whatever the record and however many
    they are: every call returns 0, and the count, starting from a value
    a C int can hold, is always the start value plus opens minus closes,
    wrapped to 32 bits. *)
Theorem count_is_opens_minus_closes_wrapped
    (cs : list session_call) (u : rte_uio_platform_dev) (t : trace) :
  INT_MIN <= refcnt u <= INT_MAX ->
  let r := do_calls cs u t in
  result r = repeat 0 (length cs) /\
  refcnt (state r) = wrap_int (refcnt u + net_opens cs) /\
  INT_MIN <= refcnt (state r) <= INT_MAX.
Proof.
  cbn zeta. revert u t. induction cs as [|c cs IH]; intros u t Hr.
  - cbn [do_calls ret result state fst snd length repeat net_opens].
    rewrite Z.add_0_r, wrap_int_small by exact Hr. auto.
  - rewrite do_calls_cons. cbn zeta. cbn [result state fst snd length repeat].
    destruct (do_call_count c u t) as (Hres & Hcnt & _).
    destruct (IH (state (do_call c u t)) (calls (do_call c u t)))
      as (IHres & IHcnt & IHrange).
    { rewrite Hcnt. apply wrap_int_range. }
    unfold result, state in *. rewrite Hres, IHres, IHcnt, Hcnt.
    split; [reflexivity|]. split.
    + rewrite wrap_int_idem_l. f_equal.
      destruct c; cbn [net_opens]; lia.
    + apply wrap_int_range.
Qed.

(** X19. The first open after a successful probe finds the count at 0: it
    returns 0, starts the worker, whose thread is named after the minor
    number given by the registration, and stores its task in the record
    attached to the device. *)
Theorem first_open_after_probe_starts_worker (ps : probe_state) (t : trace) :
  let r1 := macb_uio_probe ps t in
  result r1 = 0 ->
  let p := kthread_create_ret (calls r1) in
  let r2 := on_udev macb_uio_open (probed_dev (state r1)) (calls r1) in
  result r2 = Some 0 /\
  calls r2 = calls r1 ++ [KthreadCreate uio_minor p; KthreadBind p 0;
                          WakeUpProcess p] /\
  exists u : rte_uio_platform_dev,
    driver_data (state r2) = Some u /\
    refcnt u = 1 /\ poll_task u = p /\ minor (info u) = uio_minor.
Proof.
  cbn zeta. intros Hok.
  destruct (probe_success_run _ _ Hok) as (qs & _ & Hcalls & Hdev).
  rewrite Hdev, Hcalls. clear Hdev Hok.
  set (t1 := t ++ _) in *.
  erewrite on_udev_run by reflexivity.
  rewrite open_unfold. cbn zeta.
  cbn [result state calls fst snd refcnt fresh_udev info minor set_minor
       driver_data set_driver_data].
  change (wrap_int (0 + 1) =? 1) with true. cbn iota.
  cbn [result state calls fst snd driver_data set_driver_data].
  split; [reflexivity|]. split; [reflexivity|].
  eexists. split; [reflexivity|]. split; [reflexivity|]. split; reflexivity.
Qed.

End Driver.

(** ** Concrete runs *)

(** The session claims on a fresh record, with thread creation giving
    task 4096. *)

Lemma open_starts_one_worker_witness :
  let u0 := fresh_udev sample_info in
  let started := [KthreadCreate 0 4096; KthreadBind 4096 0; WakeUpProcess 4096] in
  macb_uio_open (always_task 4096) u0 [] =
    (0, set_poll_task 4096 (set_refcnt 1 u0), started) /\
  macb_uio_open (always_task 4096) (set_refcnt 1 u0) started =
    (0, set_refcnt 2 u0, started) /\
  calls (do_calls (always_task 4096) (repeat Open 3) u0 []) = started /\
  refcnt (state (do_calls (always_task 4096) (repeat Open 3) u0 [])) = 3.
Proof.
  cbn zeta.
  destruct (open_starts_one_worker (always_task 4096)
              (fresh_udev sample_info) [] 3) as (H1 & _ & H3).
  destruct (open_starts_one_worker (always_task 4096)
              (set_refcnt 1 (fresh_udev sample_info))
              [KthreadCreate 0 4096; KthreadBind 4096 0; WakeUpProcess 4096] 0)
    as (_ & H2 & _).
  split; [apply H1; reflexivity|].
  split; [apply H2; reflexivity|].
  destruct H3 as (Hc & Ht & _); [reflexivity|vm_compute; discriminate|].
  split; [exact Ht|exact Hc].
Defined.

(** C2: a close on the fresh record succeeds and leaves the count at -1. *)
Lemma close_at_zero_counterexample :
  let u0 := fresh_udev sample_info in
  refcnt u0 = 0 /\
  result (macb_uio_release u0 []) = 0 /\
  refcnt (state (macb_uio_release u0 [])) = -1 /\
  state (macb_uio_release u0 []) <> u0.
Proof.
  cbn zeta. split; [reflexivity|]. split; [reflexivity|].
  split; [reflexivity|]. discriminate.
Qed.

Lemma close_at_zero_goes_negative_witness :
  let u0 := fresh_udev sample_info in
  macb_uio_release u0 [] = (0, set_refcnt (-1) u0, []) /\
  result (do_calls (always_task 4096) [Open; Close; Close] u0 []) = [0; 0; 0] /\
  refcnt (state (do_calls (always_task 4096) [Open; Close; Close] u0 [])) = -1.
Proof.
  cbn zeta.
  destruct (close_at_zero_goes_negative (always_task 4096)
              (fresh_udev sample_info) [] [Open; Close; Close]) as (H1 & H2).
  split; [apply H1; reflexivity|].
  apply H2; [reflexivity|vm_compute; discriminate].
Defined.

(** C3: the last close stops the worker and leaves its task in
    [poll_task]. *)
Lemma close_keeps_handle_counterexample :
  let u1 := {| info := sample_info; refcnt := 1; poll_task := 4096 |} in
  refcnt (state (macb_uio_release u1 [])) = 0 /\
  calls (macb_uio_release u1 []) = [KthreadStop 4096] /\
  poll_task (state (macb_uio_release u1 [])) = 4096 /\
  poll_task (state (macb_uio_release u1 [])) <> NULL.
Proof.
  cbn zeta. split; [reflexivity|]. split; [reflexivity|].
  split; [reflexivity|]. discriminate.
Qed.

Lemma close_stops_worker_at_zero_witness :
  let u1 := {| info := sample_info; refcnt := 1; poll_task := 4096 |} in
  0 < refcnt u1 <= INT_MAX /\
  result (macb_uio_release u1 []) = 0 /\
  state (macb_uio_release u1 []) = set_refcnt 0 u1 /\
  poll_task (state (macb_uio_release u1 [])) = 4096 /\
  calls (macb_uio_release u1 []) = [KthreadStop 4096].
Proof.
  cbn zeta.
  assert (H : 0 < 1 <= INT_MAX) by (split; [reflexivity|vm_compute; discriminate]).
  split; [exact H|].
  exact (close_stops_worker_at_zero
           {| info := sample_info; refcnt := 1; poll_task := 4096 |} [] H).
Defined.

(** C4: after an open and a close the count is 0 and a task is still
    stored. *)
Lemma handle_outlives_count_counterexample :
  let r := do_calls (always_task 4096) [Open; Close] (fresh_udev sample_info) [] in
  refcnt (state r) = 0 /\ poll_task (state r) = 4096 /\ poll_task (state r) <> NULL.
Proof.
  cbn zeta. split; [reflexivity|]. split; [reflexivity|]. discriminate.
Qed.

Lemma worker_running_iff_count_positive_witness :
  let r := do_calls (always_task 4096) [Open; Open; Close] (fresh_udev sample_info) [] in
  (workers_running (calls r) = 1 <-> 0 < refcnt (state r)) /\
  (workers_running (calls r) = 0 <-> refcnt (state r) <= 0) /\
  (0 < refcnt (state r) -> valid_task (poll_task (state r))) /\
  poll_task (state r) = last_created (calls r) NULL.
Proof.
  apply (worker_running_iff_count_positive (always_task 4096)
           [Open; Open; Close] sample_info).
  - intros tr. split; [discriminate|reflexivity].
  - vm_compute. discriminate.
Defined.

(** C9: thread creation fails with [-ENOMEM]; [kthread_bind] is called
    on the error pointer. *)
Lemma open_binds_error_pointer_witness :
  let env := always_task (ERR_PTR (- ENOMEM)) in
  let r := macb_uio_open env (fresh_udev sample_info) [] in
  IS_ERR (ERR_PTR (- ENOMEM)) = true /\
  exists p : ptr,
    IS_ERR p = true /\
    calls r !! 0%nat = Some (KthreadCreate 0 p) /\
    calls r !! 1%nat = Some (KthreadBind p 0) /\
    poll_task (state r) = p.
Proof.
  cbn zeta. split; [reflexivity|].
  exact (open_binds_error_pointer (always_task (ERR_PTR (- ENOMEM)))
           (fresh_udev sample_info) [] eq_refl eq_refl).
Defined.

(** C5: every mapping fails, and setup still succeeds with both entries
    filled, their mapped pointers [NULL]. *)
Lemma setup_with_failed_maps_counterexample :
  let r := macb_uio_setup_iomem map_fails 3 12 two_of_three zeroed_info3 [] in
  calls r = [Ioremap 0x28000000 0x2000 NULL; Ioremap 0x30000000 0x1000 NULL] /\
  result r = 0 /\
  result r <> - ENOENT /\
  mem_at (state r) 0 =
    {| name := Some "macb_regs"%string; addr := 0x28000000; size := 0x2000;
       memtype := UIO_MEM_PHYS; internal_addr := NULL |} /\
  mem_at (state r) 1 =
    {| name := Some "macb_regs"%string; addr := 0x30000000; size := 0x1000;
       memtype := UIO_MEM_PHYS; internal_addr := NULL |}.
Proof.
  cbn zeta. split; [reflexivity|]. split; [reflexivity|].
  split; [discriminate|]. split; reflexivity.
Qed.

Lemma setup_keeps_failed_mappings_witness :
  let found := found_resources two_of_three (seq 0%nat 3%nat) in
  let r := macb_uio_setup_iomem map_fails 3 12 two_of_three zeroed_info3 [] in
  length (mem zeroed_info3) = 3%nat /\
  result r = (if found is [] then - ENOENT else 0) /\
  forall (k : nat) (res : resource),
    found !! k = Some res ->
    exists p : ptr,
      mem (state r) !! k = Some (region_of 12 res p) /\
      calls r !! (length (@nil event) + k)%nat = Some (ioremap_of 12 res p).
Proof.
  cbn zeta. split; [reflexivity|].
  apply (setup_keeps_failed_mappings map_fails 3 12 two_of_three zeroed_info3 []).
  reflexivity.
Defined.



(** C6: a second teardown of the same entries unmaps 4096 again. *)
Lemma second_teardown_unmaps_again_counterexample :
  let r1 := macb_uio_release_iomem 3 mapped_info3 [] in
  let r2 := macb_uio_release_iomem 3 (state r1) (calls r1) in
  calls r1 = [Iounmap 4096] /\
  state r1 = mapped_info3 /\
  calls r2 = [Iounmap 4096; Iounmap 4096] /\
  calls r2 <> calls r1.
Proof.
  cbn zeta. split; [reflexivity|]. split; [reflexivity|].
  split; [reflexivity|]. discriminate.
Qed.

(** C7: removal at count 0 frees a record whose count is -1. *)
Lemma remove_closes_at_zero_counterexample :
  let r := macb_uio_remove 5 attached_idle [] in
  driver_data attached_idle = Some (fresh_udev sample_info) /\
  refcnt (fresh_udev sample_info) = 0 /\
  result r = 0 /\
  calls r = [SysfsRemoveGroup; UioUnregisterDevice;
             Kfree (Some (set_refcnt (-1) (fresh_udev sample_info)))].
Proof.
  cbn zeta. split; [reflexivity|]. split; [reflexivity|]. split; reflexivity.
Qed.

Lemma remove_always_closes_once_witness :
  let r := macb_uio_remove 5 attached_idle [] in
  INT_MIN < refcnt (fresh_udev sample_info) <= INT_MAX /\
  result r = 0 /\
  state r = set_driver_data None attached_idle /\
  calls r = [SysfsRemoveGroup; UioUnregisterDevice;
             Kfree (Some (set_refcnt (-1) (fresh_udev sample_info)))].
Proof.
  cbn zeta.
  assert (H : INT_MIN < refcnt (fresh_udev sample_info) <= INT_MAX)
    by (split; [reflexivity|vm_compute; discriminate]).
  split; [exact H|].
  exact (remove_always_closes_once 5 attached_idle (fresh_udev sample_info) []
           eq_refl H).
Defined.

(** C10: no record attached. *)
Lemma remove_without_record_witness :
  driver_data two_of_three = None /\
  macb_uio_remove 5 two_of_three [] = (- EINVAL, two_of_three, []).
Proof.
  split; [reflexivity|].
  exact (remove_without_record 5 two_of_three [] eq_refl).
Defined.

(** ** Concrete runs of the further properties *)

Lemma open_close_round_trip_witness :
  let u0 := fresh_udev sample_info in
  let r1 := macb_uio_open (always_task 4096) u0 [] in
  let r2 := macb_uio_release (state r1) (calls r1) in
  INT_MIN <= refcnt u0 <= INT_MAX /\
  refcnt (state r2) = 0 /\
  calls r2 = [KthreadCreate 0 4096; KthreadBind 4096 0;
              WakeUpProcess 4096; KthreadStop 4096].
Proof.
  cbn zeta.
  assert (H : INT_MIN <= refcnt (fresh_udev sample_info) <= INT_MAX)
    by (split; vm_compute; discriminate).
  split; [exact H|].
  destruct (open_close_round_trip (always_task 4096) (fresh_udev sample_info) [] H)
    as (_ & _ & Hc & _ & _ & Ht).
  split; [exact Hc|exact Ht].
Defined.

Lemma opens_after_excess_closes_start_nothing_witness :
  let u0 := fresh_udev sample_info in
  refcnt u0 = 0 /\
  do_calls (always_task 4096) [Close; Close; Open; Open] u0 [] =
    ([0; 0; 0; 0], u0, []).
Proof.
  cbn zeta. split; [reflexivity|].
  apply (opens_after_excess_closes_start_nothing (always_task 4096)
           (fresh_udev sample_info) [] 2); [reflexivity|vm_compute; discriminate].
Defined.

Lemma thread_calls_target_latest_task_witness :
  targets_latest NULL
    (calls (do_calls (always_task 4096) [Open; Open; Close; Close; Open]
              (fresh_udev sample_info) [])).
Proof.
  apply (thread_calls_target_latest_task (always_task 4096)
           [Open; Open; Close; Close; Open] sample_info).
  - intros tr. split; [discriminate|reflexivity].
  - vm_compute. discriminate.
Defined.

Lemma setup_touches_only_filled_entries_witness :
  let r := setup_iomem_loop map_identity 3 12 two_of_three mapped_info3 [] in
  result r = 2%nat /\
  length (mem (state r)) = 3%nat /\
  mem (state r) !! 2%nat = Some zero_mem.
Proof.
  cbn zeta.
  destruct (setup_touches_only_filled_entries map_identity 3 12 two_of_three
              mapped_info3 [] eq_refl) as (_ & Hl & _ & Hrest).
  split; [reflexivity|]. split; [exact Hl|].
  exact (Hrest 2%nat (le_n 2)).
Defined.

Lemma setup_maps_each_resource_once_witness :
  let found := found_resources two_of_three (seq 0%nat 3%nat) in
  let r := macb_uio_setup_iomem map_identity 3 12 two_of_three zeroed_info3 [] in
  exists ps : list ptr,
    length ps = 2%nat /\
    calls r = [] ++ zip_with (ioremap_of 12) found ps /\
    internal_addr <$> take 2 (mem (state r)) = ps.
Proof.
  exact (setup_maps_each_resource_once map_identity 3 12 two_of_three
           zeroed_info3 [] eq_refl).
Defined.

Lemma teardown_unmaps_what_setup_mapped_witness :
  let found := found_resources two_of_three (seq 0%nat 3%nat) in
  let r1 := macb_uio_setup_iomem map_identity 3 12 two_of_three zeroed_info3 [] in
  let r2 := macb_uio_release_iomem 3 (state r1) (calls r1) in
  exists ps : list ptr,
    length ps = 2%nat /\
    calls r1 = [] ++ zip_with (ioremap_of 12) found ps /\
    calls r2 = calls r1 ++ (Iounmap <$> filter (fun p => p <> NULL) ps).
Proof.
  apply (teardown_unmaps_what_setup_mapped map_identity 3 12 two_of_three
           zeroed_info3 [] eq_refl).
  repeat constructor.
Defined.

Lemma region_window_and_resource_witness :
  let res := {| res_start := 0x28000123; res_end := 0x28001fff |} in
  let m := mem_at (state (setup_iomem_loop map_identity 3 12 two_of_three
                            zeroed_info3 [])) 0 in
  addr m = 0x28000123 - 0x123 /\
  (0x28000123 + resource_size res <= addr m + size m <->
   0x123 <= size m - resource_size res).
Proof.
  cbn zeta.
  assert (Hs : 0 <= 12 < 64) by (split; [discriminate|reflexivity]).
  destruct (region_window_and_resource map_identity 3 12 two_of_three
              zeroed_info3 [] 0 {| res_start := 0x28000123; res_end := 0x28001fff |}
              Hs eq_refl eq_refl)
    as (Ha & _ & Hc & _).
  - split; [discriminate|reflexivity].
  - reflexivity.
  - split; [exact Ha|exact Hc].
Defined.

Lemma removal_leaves_worker_with_two_consumers_witness :
  let s := do_calls (always_task 4096) [Open; Open] (fresh_udev sample_info) [] in
  let dev := {| mem_resource := fun _ => None; driver_data := Some (state s) |} in
  let r := macb_uio_remove 5 dev (calls s) in
  result r = 0 /\ driver_data (state r) = None /\ workers_running (calls r) = 1.
Proof.
  apply (removal_leaves_worker_with_two_consumers (always_task 4096) 5
           [Open; Open] sample_info (fun _ => None)).
  - intros tr. split; [discriminate|reflexivity].
  - vm_compute. discriminate.
Defined.

Lemma probe_returns_first_failure_witness :
  let ps := {| probed_dev := attached_idle; kernel_log := [] |} in
  let r := macb_uio_probe map_identity 3 12 true 0 0 7 4096 8192 ps [] in
  result r = - ENOENT /\ probed_dev (state r) = attached_idle.
Proof.
  cbn zeta.
  destruct (probe_returns_first_failure map_identity 3 12 true 0 0 7 4096 8192
              {| probed_dev := attached_idle; kernel_log := [] |} [])
    as (Hr & Hsame & _).
  split; [exact Hr|]. apply Hsame. discriminate.
Defined.

Lemma probe_failure_unwinds_witness :
  let ps := {| probed_dev := two_of_three; kernel_log := [] |} in
  let found := found_resources two_of_three (seq 0%nat 3%nat) in
  let r := macb_uio_probe map_identity 3 12 true 0 (-16) 7 4096 8192 ps [] in
  result r = -16 /\
  exists qs : list ptr,
    length qs = 2%nat /\
    calls r =
      [] ++ zip_with (ioremap_of 12) found qs
         ++ [SysfsRemoveGroup]
         ++ (Iounmap <$> filter (fun p => p <> NULL) qs)
         ++ [Kfree (Some (fresh_udev (probed_info 3 12 found qs)))].
Proof.
  cbn zeta. split; [reflexivity|].
  apply (probe_failure_unwinds map_identity 3 12 true 0 (-16) 7 4096 8192
           {| probed_dev := two_of_three; kernel_log := [] |} [] eq_refl).
  discriminate.
Defined.

Lemma probe_success_attaches_fresh_record_witness :
  let ps := {| probed_dev := two_of_three; kernel_log := [] |} in
  let found := found_resources two_of_three (seq 0%nat 3%nat) in
  let r := macb_uio_probe map_identity 3 12 true 0 0 7 4096 8192 ps [] in
  result r = 0 /\
  exists qs : list ptr,
    length qs = 2%nat /\
    calls r = [] ++ zip_with (ioremap_of 12) found qs /\
    driver_data (probed_dev (state r)) =
      Some {| info := {| mem := zip_with (region_of 12) found qs
                                ++ replicate (3 - 2) zero_mem;
                         minor := 7 |};
              refcnt := 0; poll_task := NULL |}.
Proof.
  cbn zeta. split; [reflexivity|].
  destruct (probe_success_attaches_fresh_record map_identity 3 12 true 0 0 7
              4096 8192 {| probed_dev := two_of_three; kernel_log := [] |} []
              eq_refl) as (qs & Hqs & _ & Hc & _ & Hd & _).
  exists qs. split; [exact Hqs|]. split; [exact Hc|exact Hd].
Defined.

Lemma probe_then_remove_witness :
  let ps := {| probed_dev := two_of_three; kernel_log := [] |} in
  let r1 := macb_uio_probe map_identity 3 12 true 0 0 7 4096 8192 ps [] in
  let r2 := macb_uio_remove 3 (probed_dev (state r1)) (calls r1) in
  result r1 = 0 /\ result r2 = 0 /\ state r2 = two_of_three.
Proof.
  cbn zeta. split; [reflexivity|].
  destruct (probe_then_remove map_identity 3 12 true 0 0 7 4096 8192
              {| probed_dev := two_of_three; kernel_log := [] |} [] eq_refl)
    as (Hr & Hs & _).
  split; [exact Hr|exact Hs].
Defined.

Lemma poll_notifies_until_stop_witness :
  let should_stop := fun k : nat => (2 <=? k)%nat in
  macb_uio_poll should_stop 5 =
    Some (0, [UioEventNotify; Msleep 100; UioEventNotify; Msleep 100]) /\
  macb_uio_poll should_stop 2 = None.
Proof.
  cbn zeta.
  assert (Hrun : forall j : nat, (j < 2)%nat -> (2 <=? j)%nat = false).
  { intros j Hj. apply Nat.leb_gt. exact Hj. }
  split.
  - exact (proj1 (poll_notifies_until_stop (fun k => (2 <=? k)%nat) 2 5
                    Hrun eq_refl)).
  - exact (proj1 (poll_notifies_until_stop (fun k => (2 <=? k)%nat) 2 2
                    Hrun eq_refl)).
Defined.

Lemma physical_addr_is_start_of_region0_witness :
  let shown := physical_addr_show 3 two_of_three in
  shown = ("0x28000123"%string, 10) /\
  HexString.to_Z (fst shown) = 0x28000123 /\
  page_floor 12 (HexString.to_Z (fst shown))
  = addr (mem_at (state (setup_iomem_loop map_identity 3 12 two_of_three
                           zeroed_info3 [])) 0).
Proof.
  cbn zeta.
  assert (Hs : 0 <= 12 < 64) by (split; [discriminate|reflexivity]).
  assert (Hres : forall i res, platform_get_resource two_of_three i = Some res ->
                               0 <= res_start res < 2 ^ 64).
  { intros [|[|[|i]]] res H; try discriminate H;
      injection H as <-; (split; [discriminate|reflexivity]). }
  destruct (physical_addr_is_start_of_region0 map_identity 3 12 two_of_three
              zeroed_info3 [] Hs eq_refl Hres) as (_ & Hshow).
  destruct (Hshow _ _ eq_refl) as (Htext & Hback).
  split; [exact Htext|]. apply Hback. reflexivity.
Defined.

Lemma device_life_is_balanced_witness :
  let r1 := macb_uio_probe map_identity 3 12 true 0 0 7 4096 8192
              {| probed_dev := two_of_three; kernel_log := [] |} [] in
  let r2 := on_udev (do_calls (always_task 4096) [Open; Open; Close])
              (probed_dev (state r1)) (calls r1) in
  let r3 := macb_uio_remove 3 (state r2) (calls r2) in
  result r1 = 0 /\
  result r3 = 0 /\
  state r3 = set_driver_data None two_of_three /\
  omap unmapped_pointer (calls r3)
    = filter (fun p => p <> NULL) (omap mapped_pointer (calls r3)) /\
  length (omap freed_record (calls r3)) = 1%nat /\
  workers_running (calls r3) = 0.
Proof.
  cbn zeta. split; [reflexivity|].
  apply (device_life_is_balanced (always_task 4096) map_identity 3 12
           true 0 0 7 4096 8192 two_of_three [Open; Open; Close]).
  - intros tr. split; [discriminate|reflexivity].
  - vm_compute. discriminate.
  - reflexivity.
Defined.

Lemma count_is_opens_minus_closes_wrapped_witness :
  let u := {| info := sample_info; refcnt := INT_MAX; poll_task := 4096 |} in
  let r := do_calls (always_task 4096) [Open; Open; Close] u [] in
  result r = [0; 0; 0] /\
  refcnt (state r) = INT_MIN /\
  INT_MIN <= refcnt (state r) <= INT_MAX.
Proof.
  apply (count_is_opens_minus_closes_wrapped (always_task 4096)
           [Open; Open; Close]
           {| info := sample_info; refcnt := INT_MAX; poll_task := 4096 |} []).
  split; vm_compute; discriminate.
Defined.

Lemma first_open_after_probe_starts_worker_witness :
  let r1 := macb_uio_probe map_identity 3 12 true 0 0 7 4096 8192
              {| probed_dev := two_of_three; kernel_log := [] |} [] in
  let r2 := on_udev (macb_uio_open (always_task 4096))
              (probed_dev (state r1)) (calls r1) in
  result r1 = 0 /\
  result r2 = Some 0 /\
  calls r2 = calls r1 ++ [KthreadCreate 7 4096; KthreadBind 4096 0;
                          WakeUpProcess 4096].
Proof.
  cbn zeta. split; [reflexivity|].
  destruct (first_open_after_probe_starts_worker (always_task 4096) map_identity
              3 12 true 0 0 7 4096 8192
              {| probed_dev := two_of_three; kernel_log := [] |} [] eq_refl)
    as (Hr & Hc & _).
  split; [exact Hr|exact Hc].
Defined.
